(** * Feedly MCP server: a shallow embedding of [server.py] and [client.py]

    The server registers four tool handlers; each translates its
    arguments into one HTTP request against the Feedly API, checks the
    status of the response and returns the decoded body.  The client
    parses a command line, opens a session and calls one tool.

    Python strings are represented by their UTF-8 bytes (Rocq [string]),
    Python [int] by [Z], [dict] by an association list in insertion
    order, and [None]-able values by [option].  Effects are explicit:
    a handler is a function from the process state to an outcome (a
    value or a raised exception) and the next state; the state keeps
    the list of HTTP requests sent so far, and the remote side is a
    function from that history and the request to what comes back. *)

From Stdlib Require Import String Ascii ZArith List Bool Lia DecimalString.
From Stdlib Require DecimalZ DecimalPos.
Import ListNotations.
Open Scope string_scope.
Open Scope Z_scope.

(* ===================================================================== *)
(** ** Python values used by the program                                  *)
(* ===================================================================== *)

Module py.

(** [dict] with string keys, in insertion order. *)
Definition dict (V : Type) : Type := list (string * V).

Fixpoint get {V} (d : dict V) (k : string) : option V :=
  match d with
  | [] => None
  | (k', v) :: d' => if String.eqb k' k then Some v else get d' k
  end.

(** [d[k] = v]: overwrite in place when the key exists, append otherwise. *)
Fixpoint setitem {V} (d : dict V) (k : string) (v : V) : dict V :=
  match d with
  | [] => [(k, v)]
  | (k', v') :: d' =>
      if String.eqb k' k then (k', v) :: d' else (k', v') :: setitem d' k v
  end.

(** [k in d] *)
Definition contains {V} (d : dict V) (k : string) : bool :=
  match get d k with Some _ => true | None => false end.

(** [str(n)] for an [int]: decimal digits, a leading minus sign when
    negative.  This is the text for every [n] that [printable] admits;
    beyond that CPython (3.11 and later) raises [ValueError] instead of
    returning a text, which this function does not show. *)
Definition str (n : Z) : string := NilZero.string_of_int (Z.to_int n).

(** [sys.int_max_str_digits], at its default. *)
Definition int_max_str_digits : Z := 4300.

(** The integers that [str] converts in every CPython version: those of
    at most [int_max_str_digits] decimal digits. *)
Definition printable (n : Z) : Prop := Z.abs n < 10 ^ int_max_str_digits.

(** Truth value of a [str]: the empty string is false. *)
Definition bool_of_str (s : string) : bool :=
  match s with EmptyString => false | String _ _ => true end.

(** Truth value of a [str | None]. *)
Definition truthy (v : option string) : bool :=
  match v with None => false | Some s => bool_of_str s end.

(** A parameter with a default value: [None] stands for an omitted
    argument. *)
Definition arg {A} (supplied : option A) (default : A) : A :=
  match supplied with Some a => a | None => default end.

(** f-string rendering of a [str | None] value: [None] prints as
    the word None. *)
Definition format_opt (v : option string) : string :=
  match v with Some s => s | None => "None" end.

(** [c in s] for a one-character [c]. *)
Fixpoint str_contains (s : string) (c : ascii) : bool :=
  match s with
  | EmptyString => false
  | String a s' => Ascii.eqb a c || str_contains s' c
  end.

(** [s.replace(a, b)] for one-character [a] and [b]. *)
Fixpoint replace (s : string) (a b : ascii) : string :=
  match s with
  | EmptyString => EmptyString
  | String c s' => String (if Ascii.eqb c a then b else c) (replace s' a b)
  end.

End py.

(* ===================================================================== *)
(** ** JSON values                                                        *)
(* ===================================================================== *)

#[local] Unset Elimination Schemes.
Inductive JSON : Type :=
| JNull
| JBool (b : bool)
| JInt (n : Z)
| JString (s : string)
| JArray (items : list JSON)
| JObject (members : list (string * JSON)).
#[local] Set Elimination Schemes.

(* ===================================================================== *)
(** ** [urllib.parse]                                                     *)
(* ===================================================================== *)

Module urllib.

Definition in_range (lo hi : nat) (c : ascii) : bool :=
  (Nat.leb lo (nat_of_ascii c) && Nat.leb (nat_of_ascii c) hi)%bool.

(** [_ALWAYS_SAFE]: ASCII letters, digits and the four marks [_.-~]. *)
Definition always_safe (c : ascii) : bool :=
  in_range 65 90 c || in_range 97 122 c || in_range 48 57 c
  || Ascii.eqb c "_" || Ascii.eqb c "." || Ascii.eqb c "-" || Ascii.eqb c "~".

(** One upper-case hexadecimal digit. *)
Definition hexdigit (n : nat) : ascii :=
  if Nat.ltb n 10 then ascii_of_nat (48 + n) else ascii_of_nat (55 + n).

(** ['%{:02X}'.format(byte)] *)
Definition percent (c : ascii) : string :=
  let n := nat_of_ascii c in
  String "%" (String (hexdigit (Nat.div n 16))
                     (String (hexdigit (Nat.modulo n 16)) EmptyString)).

(** [quote(string, safe)]: bytes that are always safe or listed in
    [safe] are kept, every other byte becomes [%XX]. *)
Fixpoint quote (s : string) (safe : string) : string :=
  match s with
  | EmptyString => EmptyString
  | String c s' =>
      if always_safe c || py.str_contains safe c
      then String c (quote s' safe)
      else percent c ++ quote s' safe
  end.

(** [quote_plus(string, safe='')]: like [quote], but a space becomes a
    plus sign. *)
Definition quote_plus (s : string) : string :=
  let safe := "" in
  if negb (py.str_contains s " ") then quote s safe
  else py.replace (quote s (safe ++ " ")) " " "+".

(** Value of one hexadecimal digit. *)
Definition unhex (c : ascii) : option nat :=
  if in_range 48 57 c then Some (nat_of_ascii c - 48)%nat
  else if in_range 65 70 c then Some (nat_of_ascii c - 55)%nat
  else if in_range 97 102 c then Some (nat_of_ascii c - 87)%nat
  else None.

(** [unquote]: every [%XX] with two hexadecimal digits is replaced by
    the byte it names; anything else is kept. *)
Fixpoint unquote (s : string) : string :=
  match s with
  | EmptyString => EmptyString
  | String c s' =>
      match s' with
      | String h (String l s'') =>
          if Ascii.eqb c "%" then
            match unhex h, unhex l with
            | Some a, Some b =>
                String (ascii_of_nat (16 * a + b)) (unquote s'')
            | _, _ => String c (unquote s')
            end
          else String c (unquote s')
      | _ => String c (unquote s')
      end
  end.

(** [unquote_plus]: plus signs become spaces, then [unquote]. *)
Definition unquote_plus (s : string) : string :=
  unquote (py.replace s "+" " ").

End urllib.

(* ===================================================================== *)
(** ** [httpx]: requests, responses and what can be raised                *)
(* ===================================================================== *)

Module httpx.

Inductive Method : Type := GET | POST.

(** The keyword arguments of [httpx.get] / [httpx.post] that the
    program uses. *)
Record Request : Type := {
  method : Method;
  url : string;
  params : option (py.dict string);
  json : option JSON;
  headers : py.dict string;
  timeout : Z
}.

Record Response : Type := {
  status_code : Z;
  content : string
}.

(** What comes back for a request: a response, or no response at all
    (connection failure, timeout). *)
Inductive Outcome : Type :=
| Responded (r : Response)
| Failed (reason : string).

(** [Response.is_success] *)
Definition is_success (r : Response) : bool :=
  (200 <=? status_code r) && (status_code r <=? 299).

End httpx.

Import httpx.

(** Exceptions of the program and its libraries. *)
Inductive Exn : Type :=
| HTTPStatusError (response : Response)
| TransportError (reason : string)
| JSONDecodeError (doc : string)
| UnknownTool (name : string)
| InvalidArguments (name : string)
| DuplicateTool (name : string).

(** How a call ends: with a value, or with a raised exception. *)
Inductive Outcome_of (E A : Type) : Type :=
| Ok (a : A)
| Raise (e : E).
Arguments Ok {E A} a.
Arguments Raise {E A} e.

Definition Result : Type -> Type := Outcome_of Exn.

(** Programs over a state [S] that may raise an [E]: state changes made
    before a raise are kept, as in Python. *)
Definition Prog (E S A : Type) : Type := S -> Outcome_of E A * S.

Definition ret {E S A} (a : A) : Prog E S A := fun st => (Ok a, st).

Definition raise {E S A} (e : E) : Prog E S A := fun st => (Raise e, st).

Definition bind {E S A B} (m : Prog E S A) (k : A -> Prog E S B)
    : Prog E S B :=
  fun st =>
    match m st with
    | (Ok a, st') => k a st'
    | (Raise e, st') => (Raise e, st')
    end.

Declare Scope py_scope.
Delimit Scope py_scope with py.
Notation "x <- m ;; k" := (bind m (fun x => k))
  (at level 100, m at next level, right associativity) : py_scope.
Notation "m ;; k" := (bind m (fun _ => k))
  (at level 100, right associativity) : py_scope.
Open Scope py_scope.

(* ===================================================================== *)
(** ** The tool registry                                                  *)
(* ===================================================================== *)

(** The four handler functions of [server.py]. *)
Inductive Handler : Type :=
| h_search | h_collect | h_entity_lookup | h_autocomplete_entities.

Record ToolDescriptor : Type := {
  name : string;
  description : string;
  fn : Handler
}.

Record FastMCP : Type := {
  server_name : string;
  host : string;
  port : Z;
  tools : py.dict ToolDescriptor
}.

(** Modelled from the spec: the registry of the [mcp] package is not part
    of the sources.  A tool is appended under its name; registering a name
    twice is an error that aborts startup. *)
Definition add_tool (t : ToolDescriptor) (mcp : FastMCP) : Result FastMCP :=
  if py.contains (tools mcp) (name t) then Raise (DuplicateTool (name t))
  else Ok {| server_name := server_name mcp; host := host mcp;
             port := port mcp;
             tools := py.setitem (tools mcp) (name t) t |}.

(** Modelled from the spec: [listTools] of the [mcp] package returns all
    registered descriptors in registration order. *)
Definition list_tools (mcp : FastMCP) : list ToolDescriptor :=
  map snd (tools mcp).

(* ===================================================================== *)
(** ** Process state and the monad of handlers                            *)
(* ===================================================================== *)

(** The state of the server process: the registry and the requests sent
    upstream so far, oldest first. *)
Record State : Type := {
  mcp : FastMCP;
  sent : list Request
}.

Definition M : Type -> Type := Prog Exn State.

(* ===================================================================== *)
(** ** [server.py]                                                        *)
(* ===================================================================== *)

(** What the process does not decide itself: its environment variables,
    the JSON decoder, and the remote API (which answers a request knowing
    the requests that came before). *)
Record Env : Type := {
  getenv : string -> option string;
  json_loads : string -> option JSON;
  upstream : list Request -> Request -> Outcome
}.

Module server.
Section Server.

Variable env : Env.

(** [httpx.request]: one request goes out and is recorded; a response
    comes back or a transport error is raised. *)
Definition httpx_request (req : Request) : M Response :=
  fun st =>
    let st' := {| mcp := mcp st; sent := sent st ++ [req] |} in
    match upstream env (sent st) req with
    | Responded r => (Ok r, st')
    | Failed reason => (Raise (TransportError reason), st')
    end.

Definition httpx_get (url : string) (params : option (py.dict string))
    (headers : py.dict string) (timeout : Z) : M Response :=
  httpx_request {| method := GET; url := url; params := params;
                   json := None; headers := headers; timeout := timeout |}.

Definition httpx_post (url : string) (params : option (py.dict string))
    (json : option JSON) (headers : py.dict string) (timeout : Z)
    : M Response :=
  httpx_request {| method := POST; url := url; params := params;
                   json := json; headers := headers; timeout := timeout |}.

(** [resp.raise_for_status()] *)
Definition raise_for_status (resp : Response) : M unit :=
  if is_success resp then ret tt else raise (HTTPStatusError resp).

(** [resp.json()] *)
Definition resp_json (resp : Response) : M JSON :=
  match json_loads env (content resp) with
  | Some v => ret v
  | None => raise (JSONDecodeError (content resp))
  end.

Definition FEEDLY_BASE : string := "https://api.feedly.com/v3".

Definition TOKEN : option string := getenv env "FEEDLY_TOKEN".

Definition HEADERS : py.dict string :=
  [ ("Authorization", "Bearer " ++ py.format_opt TOKEN);
    ("accept", "application/json") ].

Definition search (query : string) (count : option Z) : M JSON :=
  let count := py.arg count 10 in
  let params := [("count", py.str count)] in
  let body := JObject [("query", JString query)] in
  resp <- httpx_post (FEEDLY_BASE ++ "/search/contents")
                     (Some params) (Some body) HEADERS 30 ;;
  raise_for_status resp ;;
  resp_json resp.

Definition collect (stream_id : string) (count : option Z)
    (continuation : option string) : M JSON :=
  let count := py.arg count 20 in
  let params := [("streamId", stream_id); ("count", py.str count)] in
  let params :=
    match continuation with
    | Some c =>
        if py.bool_of_str c then py.setitem params "continuation" c
        else params
    | None => params
    end in
  resp <- httpx_get (FEEDLY_BASE ++ "/streams/contents")
                    (Some params) HEADERS 30 ;;
  raise_for_status resp ;;
  resp_json resp.

Definition entity_lookup (entity_id : string) : M JSON :=
  let encoded := urllib.quote_plus entity_id in
  resp <- httpx_get (FEEDLY_BASE ++ "/entities/" ++ encoded)
                    None HEADERS 30 ;;
  raise_for_status resp ;;
  resp_json resp.

Definition autocomplete_entities (prefix : string) (count : option Z)
    : M JSON :=
  let count := py.arg count 10 in
  let params := [("prefix", prefix); ("count", py.str count)] in
  resp <- httpx_get (FEEDLY_BASE ++ "/entities/autocomplete")
                    (Some params) HEADERS 30 ;;
  raise_for_status resp ;;
  resp_json resp.

(** *** Registration: the four [@mcp.tool] decorators, in file order *)

Definition mcp0 : FastMCP :=
  {| server_name := "feedly"; host := "0.0.0.0"; port := 8080; tools := [] |}.

Definition search_tool : ToolDescriptor :=
  {| name := "feedly.search";
     description := "Full-text or NLP Layer search against Feedly work-space";
     fn := h_search |}.

Definition collect_tool : ToolDescriptor :=
  {| name := "feedly.collect";
     description :=
       "Fetch articles from a Feedly StreamID (team feed, board, …)";
     fn := h_collect |}.

Definition entity_lookup_tool : ToolDescriptor :=
  {| name := "feedly.entity_lookup";
     description := "Return metadata about a single NLP entity ID.";
     fn := h_entity_lookup |}.

Definition autocomplete_tool : ToolDescriptor :=
  {| name := "feedly.autocomplete";
     description := "Suggest entity IDs that match a text prefix.";
     fn := h_autocomplete_entities |}.

Definition and_then {A B} (r : Result A) (k : A -> Result B) : Result B :=
  match r with Ok a => k a | Raise e => Raise e end.

(** Importing the module: the registry is created and the decorators run
    top to bottom. *)
Definition load : Result FastMCP :=
  and_then (add_tool search_tool mcp0) (fun m1 =>
  and_then (add_tool collect_tool m1) (fun m2 =>
  and_then (add_tool entity_lookup_tool m2) (fun m3 =>
  add_tool autocomplete_tool m3))).

(** The process after startup, before any request. *)
Definition startup : Result State :=
  and_then load (fun m => Ok {| mcp := m; sent := [] |}).

(** *** Dispatch *)

(** Reading the arguments of a call against a handler's signature:
    [None] is a schema violation. *)
Definition required_str (args : py.dict JSON) (k : string) : option string :=
  match py.get args k with
  | Some (JString s) => Some s
  | _ => None
  end.

Definition optional_int (args : py.dict JSON) (k : string)
    : option (option Z) :=
  match py.get args k with
  | None => Some None
  | Some (JInt n) => Some (Some n)
  | Some _ => None
  end.

Definition optional_str (args : py.dict JSON) (k : string)
    : option (option string) :=
  match py.get args k with
  | None | Some JNull => Some None
  | Some (JString s) => Some (Some s)
  | Some _ => None
  end.

(** Calling a handler with the arguments of a request. *)
Definition invoke (h : Handler) (tool_name : string) (args : py.dict JSON)
    : M JSON :=
  match h with
  | h_search =>
      match required_str args "query", optional_int args "count" with
      | Some query, Some count => search query count
      | _, _ => raise (InvalidArguments tool_name)
      end
  | h_collect =>
      match required_str args "stream_id", optional_int args "count",
            optional_str args "continuation" with
      | Some stream_id, Some count, Some continuation =>
          collect stream_id count continuation
      | _, _, _ => raise (InvalidArguments tool_name)
      end
  | h_entity_lookup =>
      match required_str args "entity_id" with
      | Some entity_id => entity_lookup entity_id
      | None => raise (InvalidArguments tool_name)
      end
  | h_autocomplete_entities =>
      match required_str args "prefix", optional_int args "count" with
      | Some prefix, Some count => autocomplete_entities prefix count
      | _, _ => raise (InvalidArguments tool_name)
      end
  end.

(** Modelled from the spec: [callTool] of the [mcp] package fails with
    [UnknownTool] when the name is absent and with [InvalidArguments] when
    the arguments do not fit the schema; otherwise it invokes the handler
    and passes on its value or its error. *)
Definition call_tool (tool_name : string) (args : py.dict JSON) : M JSON :=
  fun st =>
    match py.get (tools (mcp st)) tool_name with
    | None => raise (UnknownTool tool_name) st
    | Some t => invoke (fn t) tool_name args st
    end.

(** What a session can ask of the dispatcher, and what it gets back. *)
Inductive Activity : Type :=
| ListTools
| CallTool (tool_name : string) (args : py.dict JSON).

Inductive Reply : Type :=
| Tools (descriptors : list ToolDescriptor)
| ToolResult (r : Result JSON).

Definition step (a : Activity) (st : State) : Reply * State :=
  match a with
  | ListTools => (Tools (list_tools (mcp st)), st)
  | CallTool tool_name args =>
      let (r, st') := call_tool tool_name args st in (ToolResult r, st')
  end.

(** The state after a sequence of requests. *)
Fixpoint after (acts : list Activity) (st : State) : State :=
  match acts with
  | [] => st
  | a :: acts' => after acts' (snd (step a st))
  end.

(** A direct invocation of one of the four handlers. *)
Inductive Invocation : Type :=
| Search (query : string) (count : option Z)
| Collect (stream_id : string) (count : option Z)
          (continuation : option string)
| EntityLookup (entity_id : string)
| Autocomplete (prefix : string) (count : option Z).

Definition handle (i : Invocation) : M JSON :=
  match i with
  | Search query count => search query count
  | Collect stream_id count continuation =>
      collect stream_id count continuation
  | EntityLookup entity_id => entity_lookup entity_id
  | Autocomplete prefix count => autocomplete_entities prefix count
  end.

End Server.
End server.

(* ===================================================================== *)
(** ** [client.py]                                                        *)
(* ===================================================================== *)

Module client.

(** What the client does to the outside, in order. *)
Inductive Action : Type :=
| Connect (url : string)
| OpenSession
| Initialize
| CallToolRequest (tool : string) (args : JSON)
| CloseSession
| Disconnect.

(** The result of [session.call_tool]: content blocks and the error flag
    (an error result is a value, not an exception). *)
Record CallToolResult : Type := {
  content : list JSON;
  isError : bool
}.

(** [result.model_dump()] *)
Definition model_dump (r : CallToolResult) : JSON :=
  JObject [("content", JArray (content r)); ("isError", JBool (isError r))].

(** How [json.loads] ends on a text: with a value, with
    [JSONDecodeError] (a [ValueError]), or with another exception (such as
    [RecursionError] on deeply nested text), given by its message. *)
Inductive Loads : Type :=
| Loaded (v : JSON)
| Invalid
| Crashed (message : string).

(** What the client does not decide: the JSON decoder, [repr] of a text,
    whether an action fails (with which message), and what the server
    answers to a call. *)
Record Env : Type := {
  json_loads : string -> Loads;
  repr : string -> string;
  fails : list Action -> Action -> option string;
  answer : list Action -> string -> JSON -> CallToolResult
}.

(** How [parse_args] can fail: with an error of the parser, or with an
    exception of the conversion function that the parser does not handle. *)
Inductive Failure : Type :=
| ParserError (message : string)
| Uncaught (message : string).

(** The client process: what it has done, and what it has written. *)
Record Proc : Type := {
  actions : list Action;
  stdout : list JSON;
  stderr : list string
}.

(** An exception of the client is represented by its message. *)
Definition P : Type -> Type := Prog string Proc.

(** The options the command line supplies: the positional words, and the
    values of [--url] and [--args] when given. *)
Record CommandLine : Type := {
  positionals : list string;
  opt_url : option string;
  opt_args : option string
}.

(** The result of [parse_args]. *)
Record Namespace : Type := {
  tool : string;
  url : string;
  args : JSON
}.

(** End of the process. *)
Record Exit : Type := {
  status : Z;
  final : Proc
}.

Section Client.

Variable env : Env.

Definition perform (a : Action) : P unit :=
  fun st =>
    let st' := {| actions := actions st ++ [a]; stdout := stdout st;
                  stderr := stderr st |} in
    match fails env (actions st) a with
    | Some message => (Raise message, st')
    | None => (Ok tt, st')
    end.

(** Entering [streamablehttp_client(url)]: the transport is set up but
    nothing is sent yet (the first traffic is the handshake), so nothing
    fails here. *)
Definition enter_transport (url : string) : P unit :=
  fun st =>
    (Ok tt, {| actions := actions st ++ [Connect url]; stdout := stdout st;
               stderr := stderr st |}).

(** [await session.call_tool(tool, args)] *)
Definition session_call_tool (tool : string) (args : JSON)
    : P CallToolResult :=
  fun st =>
    (perform (CallToolRequest tool args) ;;
     ret (answer env (actions st) tool args)) st.

Definition print (v : JSON) : P unit :=
  fun st =>
    (Ok tt, {| actions := actions st; stdout := stdout st ++ [v];
               stderr := stderr st |}).

(** [async with enter ... : body], leaving through [leave] whether or not
    the body raised; an exception from [leave] replaces the body's. *)
Definition async_with {A} (enter leave : P unit) (body : P A) : P A :=
  fun st =>
    match enter st with
    | (Raise e, st1) => (Raise e, st1)
    | (Ok _, st1) =>
        let (r, st2) := body st1 in
        match leave st2 with
        | (Ok _, st3) => (r, st3)
        | (Raise e, st3) => (Raise e, st3)
        end
    end.

Definition run (url tool : string) (args : JSON) : P unit :=
  async_with (enter_transport url) (perform Disconnect)
    (async_with (perform OpenSession) (perform CloseSession)
       (perform Initialize ;;
        result <- session_call_tool tool args ;;
        print (model_dump result))).

(** The parser declared in the main block: one positional [tool], [--url]
    with its default, [--args] converted by [json.loads] (its default is
    text and is converted too).  The conversion comes first; the parser
    turns a [ValueError] of the conversion into its own error and lets any
    other exception through.  Then a missing [tool] and surplus words are
    reported. *)
Definition parse_args (cl : CommandLine) : Outcome_of Failure Namespace :=
  let url := py.arg (opt_url cl) "http://localhost:8080" in
  let text := py.arg (opt_args cl) "{}" in
  match json_loads env text with
  | Crashed message => Raise (Uncaught message)
  | Invalid =>
      Raise (ParserError
               ("argument --args: invalid loads value: " ++ repr env text))
  | Loaded args =>
      match positionals cl with
      | [] => Raise (ParserError "the following arguments are required: tool")
      | [tool] => Ok {| tool := tool; url := url; args := args |}
      | _ :: extra =>
          Raise (ParserError
                   ("unrecognized arguments: " ++ String.concat " " extra))
      end
  end.

Definition start : Proc := {| actions := []; stdout := []; stderr := [] |}.

Definition write_stderr (message : string) (st : Proc) : Proc :=
  {| actions := actions st; stdout := stdout st;
     stderr := stderr st ++ [message] |}.

(** The main block: a parser error ends the process with status 2; an
    exception that escapes the conversion of [--args] or [run] is
    reported by the interpreter, which exits with status 1.  Both write
    on standard error. *)
Definition main (cl : CommandLine) : Exit :=
  match parse_args cl with
  | Raise (ParserError message) =>
      {| status := 2; final := write_stderr message start |}
  | Raise (Uncaught message) =>
      {| status := 1; final := write_stderr message start |}
  | Ok opts =>
      match run (url opts) (tool opts) (args opts) start with
      | (Ok _, st) => {| status := 0; final := st |}
      | (Raise message, st) =>
          {| status := 1; final := write_stderr message st |}
      end
  end.

End Client.
End client.

(* ===================================================================== *)
(** ** Notions used to state the properties                               *)
(* ===================================================================== *)

Module spec.

(** Percent-encoding as the specification words it: every byte that is
    not an unreserved character (letter, digit, [-], [.], [_], [~]) is
    replaced by [%XX]. *)
Definition unreserved (c : ascii) : bool :=
  urllib.in_range 65 90 c || urllib.in_range 97 122 c
  || urllib.in_range 48 57 c
  || Ascii.eqb c "-" || Ascii.eqb c "." || Ascii.eqb c "_" || Ascii.eqb c "~".

Fixpoint percent_encode (s : string) : string :=
  match s with
  | EmptyString => EmptyString
  | String c s' =>
      if unreserved c then String c (percent_encode s')
      else urllib.percent c ++ percent_encode s'
  end.

(** What [quote_plus] does to one byte. *)
Definition form_encode_byte (c : ascii) : string :=
  if Ascii.eqb c " " then "+"
  else if urllib.always_safe c then String c EmptyString
  else urllib.percent c.

Fixpoint form_encode (s : string) : string :=
  match s with
  | EmptyString => EmptyString
  | String c s' => form_encode_byte c ++ form_encode s'
  end.

(** What a handler makes of whatever came back for its request. *)
Definition deliver (loads : string -> option JSON) (o : Outcome)
    : Result JSON :=
  match o with
  | Failed reason => Raise (TransportError reason)
  | Responded r =>
      if is_success r then
        match loads (content r) with
        | Some v => Ok v
        | None => Raise (JSONDecodeError (content r))
        end
      else Raise (HTTPStatusError r)
  end.

(** The request each invocation is expected to send. *)
Definition request_of (env : Env) (i : server.Invocation) : Request :=
  let auth :=
    [ ("Authorization", "Bearer " ++ py.format_opt (getenv env "FEEDLY_TOKEN"));
      ("accept", "application/json") ] in
  match i with
  | server.Search query count =>
      {| method := POST;
         url := "https://api.feedly.com/v3/search/contents";
         params := Some [("count", py.str (py.arg count 10))];
         json := Some (JObject [("query", JString query)]);
         headers := auth; timeout := 30 |}
  | server.Collect stream_id count continuation =>
      {| method := GET;
         url := "https://api.feedly.com/v3/streams/contents";
         params :=
           Some ([("streamId", stream_id); ("count", py.str (py.arg count 20))]
                 ++ match continuation with
                    | Some (String a c) => [("continuation", String a c)]
                    | _ => []
                    end)%list;
         json := None; headers := auth; timeout := 30 |}
  | server.EntityLookup entity_id =>
      {| method := GET;
         url := "https://api.feedly.com/v3/entities/" ++ form_encode entity_id;
         params := None; json := None; headers := auth; timeout := 30 |}
  | server.Autocomplete prefix count =>
      {| method := GET;
         url := "https://api.feedly.com/v3/entities/autocomplete";
         params := Some [("prefix", prefix); ("count", py.str (py.arg count 10))];
         json := None; headers := auth; timeout := 30 |}
  end.

(** The state after one more request. *)
Definition sending (req : Request) (st : State) : State :=
  {| mcp := mcp st; sent := sent st ++ [req] |}.

(** The tool name and the JSON arguments that reach a given invocation
    through the dispatcher. *)
Definition tool_name (i : server.Invocation) : string :=
  match i with
  | server.Search _ _ => "feedly.search"
  | server.Collect _ _ _ => "feedly.collect"
  | server.EntityLookup _ => "feedly.entity_lookup"
  | server.Autocomplete _ _ => "feedly.autocomplete"
  end.

Definition int_member (k : string) (v : option Z) : py.dict JSON :=
  match v with Some n => [(k, JInt n)] | None => [] end.

Definition str_member (k : string) (v : option string) : py.dict JSON :=
  match v with Some s => [(k, JString s)] | None => [] end.

Definition arguments (i : server.Invocation) : py.dict JSON :=
  match i with
  | server.Search query count =>
      ("query", JString query) :: int_member "count" count
  | server.Collect stream_id count continuation =>
      ("stream_id", JString stream_id)
        :: (int_member "count" count
            ++ str_member "continuation" continuation)%list
  | server.EntityLookup entity_id => [("entity_id", JString entity_id)]
  | server.Autocomplete prefix count =>
      ("prefix", JString prefix) :: int_member "count" count
  end.

(** The registry once the four decorators have run. *)
Definition registry : FastMCP :=
  {| server_name := "feedly"; host := "0.0.0.0"; port := 8080;
     tools := [("feedly.search", server.search_tool);
               ("feedly.collect", server.collect_tool);
               ("feedly.entity_lookup", server.entity_lookup_tool);
               ("feedly.autocomplete", server.autocomplete_tool)] |}.

(** How many times the client called a tool. *)
Fixpoint calls (l : list client.Action) : nat :=
  match l with
  | [] => 0%nat
  | client.CallToolRequest _ _ :: l' => S (calls l')
  | _ :: l' => calls l'
  end.

End spec.

(** Concrete surroundings for checking the statements on examples. *)
Module sample.

Definition loads (s : string) : option JSON :=
  if String.eqb s "{}" then Some (JObject [])
  else if String.eqb s "null" then Some JNull
  else None.

(** An API that answers every request with the same status and body. *)
Definition api (token : option string) (code : Z) (body : string) : Env :=
  {| getenv := fun k => if String.eqb k "FEEDLY_TOKEN" then token else None;
     json_loads := loads;
     upstream := fun _ _ => Responded {| status_code := code; content := body |} |}.

Definition fresh : State := {| mcp := server.mcp0; sent := [] |}.

(** [json.loads] on the command line: texts that [loads] does not know
    are rejected, except one that is nested too deeply. *)
Definition client_loads (s : string) : client.Loads :=
  match loads s with
  | Some v => client.Loaded v
  | None =>
      if String.eqb s "[[[[" then
        client.Crashed "maximum recursion depth exceeded"
      else client.Invalid
  end.

(** [repr] of a text without quotes or escapes. *)
Definition quoted (s : string) : string := "'" ++ s ++ "'".


(** The same, but the handshake fails. *)
Definition deaf_peer : client.Env :=
  {| client.json_loads := client_loads;
     client.repr := quoted;
     client.fails := fun _ a =>
       match a with
       | client.Initialize => Some "Connection closed"
       | _ => None
       end;
     client.answer := fun _ _ _ =>
       {| client.content := []; client.isError := false |} |}.

End sample.

(* ===================================================================== *)
(** ** [tests/test_server.py]                                             *)
(* ===================================================================== *)

Module tests.

(** What the fixture and the test do to the outside, in order.  Times are
    in milliseconds ([0.5] seconds is [500]). *)
Inductive Action : Type :=
| Popen (argv : list string)
| CreateConnection (host : string) (port : Z) (timeout : Z)
| CloseConnection
| Sleep (ms : Z)
| Terminate
| Wait
| Connect (url : string)
| OpenSession
| Initialize
| ListToolsRequest
| CloseSession
| Disconnect.

(** What the test module does not decide: whether the k-th connection
    attempt is accepted, whether a session action fails (with which
    message), and which tools the server lists. *)
Record Env : Type := {
  accepts : nat -> bool;
  fails : list Action -> Action -> option string;
  listed : list Action -> list ToolDescriptor
}.

(** An exception is represented by its message; the state is the trace of
    what has been done. *)
Definition T : Type -> Type := Prog string (list Action).

Section Tests.

Variable env : Env.

(** An action whose failure is not modelled. *)
Definition emit (a : Action) : T unit :=
  fun tr => (Ok tt, (tr ++ [a])%list).

(** A session action, which the other side may make fail. *)
Definition perform (a : Action) : T unit :=
  fun tr =>
    match fails env tr a with
    | Some message => (Raise message, (tr ++ [a])%list)
    | None => (Ok tt, (tr ++ [a])%list)
    end.

(** Entering [streamablehttp_client(url)]: nothing is sent yet, so
    nothing fails here. *)
Definition enter_transport (url : string) : T unit := emit (Connect url).

(** One pass through the body of the loop: [true] when the connection was
    made (the socket is closed again and the loop left by [break]),
    [false] when [OSError] was caught and the fixture slept. *)
Definition attempt (k : nat) : T bool :=
  emit (CreateConnection "localhost" 8080 500) ;;
  if accepts env k then emit CloseConnection ;; ret true
  else emit (Sleep 500) ;; ret false.

(** [for _ in range(n): ...] starting at attempt [k]; [true] when the
    loop was left by [break], [false] when it ran out (the [else] branch
    runs). *)
Fixpoint poll (n k : nat) : T bool :=
  match n with
  | O => ret false
  | S n' =>
      connected <- attempt k ;;
      if connected then ret true else poll n' (S k)
  end.

(** The fixture [server_proc]; [tests] is what runs between the [yield]
    and the teardown. *)
Definition server_proc (tests : T unit) : T unit :=
  emit (Popen ["python"; "server.py"]) ;;
  started <- poll 20 0 ;;
  if started then
    fun tr =>
      let (r, tr') := tests tr in
      (r, snd ((emit Terminate ;; emit Wait) tr'))
  else
    emit Terminate ;; emit Wait ;; raise "server did not start".

(** [async with enter ... : body], leaving through [leave] whether or not
    the body raised. *)
Definition async_with {A} (enter leave : T unit) (body : T A) : T A :=
  fun tr =>
    match enter tr with
    | (Raise e, tr1) => (Raise e, tr1)
    | (Ok _, tr1) =>
        let (r, tr2) := body tr1 in
        match leave tr2 with
        | (Ok _, tr3) => (r, tr3)
        | (Raise e, tr3) => (Raise e, tr3)
        end
    end.

(** [await session.list_tools()] *)
Definition session_list_tools : T (list ToolDescriptor) :=
  fun tr => (perform ListToolsRequest ;; ret (listed env tr)) tr.

(** [assert b] *)
Definition assert (b : bool) : T unit :=
  if b then ret tt else raise "AssertionError".

Definition test_list_tools : T unit :=
  async_with (enter_transport "http://localhost:8080/mcp")
             (perform Disconnect)
    (async_with (perform OpenSession) (perform CloseSession)
       (perform Initialize ;;
        result <- session_list_tools ;;
        let names := map name result in
        assert (existsb (String.eqb "feedly.search") names))).

End Tests.

(** The trace of [k] refused attempts. *)
Fixpoint refused (k : nat) : list Action :=
  match k with
  | O => []
  | S k' => CreateConnection "localhost" 8080 500 :: Sleep 500 :: refused k'
  end.

(** How many connection attempts a trace holds. *)
Fixpoint attempts (tr : list Action) : nat :=
  match tr with
  | [] => 0%nat
  | CreateConnection _ _ _ :: tr' => S (attempts tr')
  | _ :: tr' => attempts tr'
  end.

(** Total time slept, in milliseconds. *)
Fixpoint slept (tr : list Action) : Z :=
  match tr with
  | [] => 0
  | Sleep ms :: tr' => ms + slept tr'
  | _ :: tr' => slept tr'
  end.

End tests.

(** Further notions used to state properties. *)
Module obs.

(** Every byte of [s] satisfies [p]. *)
Fixpoint all_bytes (p : ascii -> bool) (s : string) : bool :=
  match s with
  | EmptyString => true
  | String c s' => p c && all_bytes p s'
  end.

(** The bytes [quote_plus] can produce. *)
Definition encoded_byte (c : ascii) : bool :=
  urllib.always_safe c || Ascii.eqb c "%" || Ascii.eqb c "+".


End obs.

(** More concrete surroundings. *)
Module sample2.

(** A machine on which the server accepts connections from the third
    attempt on, no session action fails, and the server lists its four
    tools. *)
Definition slow_start : tests.Env :=
  {| tests.accepts := fun k => Nat.leb 2 k;
     tests.fails := fun _ _ => None;
     tests.listed := fun _ => list_tools spec.registry |}.

(** A machine on which nothing ever listens. *)
Definition never_up : tests.Env :=
  {| tests.accepts := fun _ => false;
     tests.fails := fun _ _ => None;
     tests.listed := fun _ => [] |}.

(** An API that cannot be reached. *)
Definition unreachable : Env :=
  {| getenv := fun _ => None;
     json_loads := sample.loads;
     upstream := fun _ _ => Failed "connect timeout" |}.

End sample2.

(* ===================================================================== *)
(** * Properties                                                          *)
(* ===================================================================== *)

(** ** Bytes and strings *)

(** Case analysis over the 256 bytes. *)
Ltac each_byte c :=
  destruct c as [[|] [|] [|] [|] [|] [|] [|] [|]].

Lemma replace_append s t a b :
  py.replace (s ++ t) a b = py.replace s a b ++ py.replace t a b.
Proof.
  induction s as [|c s IH]; simpl; [reflexivity|].
  now rewrite IH.
Qed.

Lemma str_contains_append s t c :
  py.str_contains (s ++ t) c = py.str_contains s c || py.str_contains t c.
Proof.
  induction s as [|a s IH]; simpl; [reflexivity|].
  now rewrite IH, orb_assoc.
Qed.

(** ** [quote_plus] byte by byte *)

Lemma unreserved_always_safe c : spec.unreserved c = urllib.always_safe c.
Proof. each_byte c; reflexivity. Qed.

Lemma quote_cons c s safe :
  urllib.quote (String c s) safe
  = if urllib.always_safe c || py.str_contains safe c
    then String c (urllib.quote s safe)
    else urllib.percent c ++ urllib.quote s safe.
Proof. reflexivity. Qed.

Lemma percent_encode_cons c s :
  spec.percent_encode (String c s)
  = if spec.unreserved c then String c (spec.percent_encode s)
    else urllib.percent c ++ spec.percent_encode s.
Proof. reflexivity. Qed.

Lemma form_encode_cons c s :
  spec.form_encode (String c s) = spec.form_encode_byte c ++ spec.form_encode s.
Proof. reflexivity. Qed.

Lemma str_contains_cons a s c :
  py.str_contains (String a s) c = Ascii.eqb a c || py.str_contains s c.
Proof. reflexivity. Qed.

(** A byte other than a space is encoded as in percent-encoding. *)
Lemma form_encode_byte_no_space c :
  Ascii.eqb c " " = false ->
  spec.form_encode_byte c
  = if urllib.always_safe c then String c EmptyString else urllib.percent c.
Proof. intros H. unfold spec.form_encode_byte. now rewrite H. Qed.

Lemma quote_no_space s :
  py.str_contains s " " = false ->
  urllib.quote s "" = spec.form_encode s /\
  urllib.quote s "" = spec.percent_encode s.
Proof.
  induction s as [|c s IH]; [now split|].
  rewrite str_contains_cons. intros H.
  apply orb_false_iff in H. destruct H as [Hc Hs].
  destruct (IH Hs) as [IH1 IH2].
  rewrite quote_cons, percent_encode_cons, form_encode_cons.
  rewrite (form_encode_byte_no_space c Hc), unreserved_always_safe.
  change (py.str_contains "" c) with false. rewrite orb_false_r.
  destruct (urllib.always_safe c); rewrite <- ?IH1, <- ?IH2; now split.
Qed.

(** With the space declared safe and then replaced, each byte comes out
    as [form_encode_byte] says. *)
Lemma quote_space_byte c rest :
  py.replace (if urllib.always_safe c || py.str_contains " " c
              then String c rest else urllib.percent c ++ rest) " " "+"
  = spec.form_encode_byte c ++ py.replace rest " " "+".
Proof. each_byte c; reflexivity. Qed.

Lemma quote_space_replaced s :
  py.replace (urllib.quote s " ") " " "+" = spec.form_encode s.
Proof.
  induction s as [|c s IH]; [reflexivity|].
  now rewrite quote_cons, quote_space_byte, form_encode_cons, IH.
Qed.

(** [quote_plus] encodes each byte on its own. *)
Lemma quote_plus_bytes s : urllib.quote_plus s = spec.form_encode s.
Proof.
  unfold urllib.quote_plus.
  destruct (py.str_contains s " ") eqn:Hs; simpl.
  - apply quote_space_replaced.
  - now apply quote_no_space.
Qed.

(** Without a space in the input, [quote_plus] is the percent-encoding. *)
Lemma quote_plus_percent_encode s :
  py.str_contains s " " = false -> urllib.quote_plus s = spec.percent_encode s.
Proof.
  intros Hs. unfold urllib.quote_plus. rewrite Hs. simpl.
  now apply quote_no_space.
Qed.

(** No encoded byte contains a slash or a colon. *)
Lemma form_encode_byte_escapes c :
  py.str_contains (spec.form_encode_byte c) "/" = false /\
  py.str_contains (spec.form_encode_byte c) ":" = false.
Proof. each_byte c; split; reflexivity. Qed.

Lemma form_encode_escapes s :
  py.str_contains (spec.form_encode s) "/" = false /\
  py.str_contains (spec.form_encode s) ":" = false.
Proof.
  induction s as [|c s [IH1 IH2]]; [now split|].
  rewrite form_encode_cons, !str_contains_append, IH1, IH2.
  destruct (form_encode_byte_escapes c) as [H1 H2].
  now rewrite H1, H2.
Qed.

(** Decoding gives the input back, so distinct ids give distinct paths. *)
Lemma unquote_plus_byte c rest :
  urllib.unquote (py.replace (spec.form_encode_byte c) "+" " " ++ rest)
  = String c (urllib.unquote rest).
Proof. each_byte c; destruct rest as [|h [|l rest]]; reflexivity. Qed.

Lemma unquote_plus_quote_plus s : urllib.unquote_plus (urllib.quote_plus s) = s.
Proof.
  rewrite quote_plus_bytes. unfold urllib.unquote_plus.
  induction s as [|c s IH]; [reflexivity|].
  now rewrite form_encode_cons, replace_append, unquote_plus_byte, IH.
Qed.

(** ** One request per handler *)

Open Scope list_scope.

Section Handlers.

Variable env : Env.

(** The tail shared by the four handlers: send, check the status, decode. *)
Lemma exchange_run req st :
  (resp <- server.httpx_request env req ;;
   server.raise_for_status resp ;;
   server.resp_json env resp) st
  = (spec.deliver (json_loads env) (upstream env (sent st) req),
     spec.sending req st).
Proof.
  unfold bind, server.httpx_request, server.raise_for_status,
    server.resp_json, spec.deliver, spec.sending.
  destruct (upstream env (sent st) req) as [r|reason]; [|reflexivity].
  destruct (is_success r); [|reflexivity].
  destruct (json_loads env (content r)); reflexivity.
Qed.

Lemma search_run query count st :
  server.search env query count st
  = (spec.deliver (json_loads env)
       (upstream env (sent st) (spec.request_of env (server.Search query count))),
     spec.sending (spec.request_of env (server.Search query count)) st).
Proof. apply exchange_run. Qed.

Lemma collect_run stream_id count continuation st :
  server.collect env stream_id count continuation st
  = (spec.deliver (json_loads env)
       (upstream env (sent st)
          (spec.request_of env (server.Collect stream_id count continuation))),
     spec.sending
       (spec.request_of env (server.Collect stream_id count continuation)) st).
Proof.
  destruct continuation as [[|a c]|]; apply exchange_run.
Qed.

Lemma entity_lookup_run entity_id st :
  server.entity_lookup env entity_id st
  = (spec.deliver (json_loads env)
       (upstream env (sent st)
          (spec.request_of env (server.EntityLookup entity_id))),
     spec.sending (spec.request_of env (server.EntityLookup entity_id)) st).
Proof.
  unfold server.entity_lookup, spec.request_of.
  rewrite quote_plus_bytes. apply exchange_run.
Qed.

Lemma autocomplete_entities_run prefix count st :
  server.autocomplete_entities env prefix count st
  = (spec.deliver (json_loads env)
       (upstream env (sent st)
          (spec.request_of env (server.Autocomplete prefix count))),
     spec.sending (spec.request_of env (server.Autocomplete prefix count)) st).
Proof. apply exchange_run. Qed.

(** Every invocation sends exactly its request and makes its result from
    what comes back. *)
Lemma handle_run i st :
  server.handle env i st
  = (spec.deliver (json_loads env) (upstream env (sent st) (spec.request_of env i)),
     spec.sending (spec.request_of env i) st).
Proof.
  destruct i; simpl server.handle.
  - apply search_run.
  - apply collect_run.
  - apply entity_lookup_run.
  - apply autocomplete_entities_run.
Qed.

Lemma handle_sent i st :
  sent (snd (server.handle env i st)) = sent st ++ [spec.request_of env i].
Proof. now rewrite handle_run. Qed.

Lemma handle_mcp i st : mcp (snd (server.handle env i st)) = mcp st.
Proof. now rewrite handle_run. Qed.

(** *** The dispatcher leaves the registry alone *)

Lemma invoke_mcp h tool_name args st :
  mcp (snd (server.invoke env h tool_name args st)) = mcp st.
Proof.
  destruct h; simpl.
  - destruct (server.required_str args "query") as [query|]; [|reflexivity].
    destruct (server.optional_int args "count") as [count|]; [|reflexivity].
    apply (handle_mcp (server.Search query count)).
  - destruct (server.required_str args "stream_id") as [stream_id|];
      [|reflexivity].
    destruct (server.optional_int args "count") as [count|]; [|reflexivity].
    destruct (server.optional_str args "continuation") as [continuation|];
      [|reflexivity].
    apply (handle_mcp (server.Collect stream_id count continuation)).
  - destruct (server.required_str args "entity_id") as [entity_id|];
      [|reflexivity].
    apply (handle_mcp (server.EntityLookup entity_id)).
  - destruct (server.required_str args "prefix") as [prefix|]; [|reflexivity].
    destruct (server.optional_int args "count") as [count|]; [|reflexivity].
    apply (handle_mcp (server.Autocomplete prefix count)).
Qed.

Lemma call_tool_mcp tool_name args st :
  mcp (snd (server.call_tool env tool_name args st)) = mcp st.
Proof.
  unfold server.call_tool.
  destruct (py.get (tools (mcp st)) tool_name) as [t|]; [|reflexivity].
  apply invoke_mcp.
Qed.

Lemma step_mcp a st : mcp (snd (server.step env a st)) = mcp st.
Proof.
  destruct a as [|tool_name args]; simpl; [reflexivity|].
  pose proof (call_tool_mcp tool_name args st) as H.
  destruct (server.call_tool env tool_name args st). exact H.
Qed.

Lemma after_mcp acts st : mcp (server.after env acts st) = mcp st.
Proof.
  revert st. induction acts as [|a acts IH]; intros st; simpl; [reflexivity|].
  now rewrite IH, step_mcp.
Qed.

End Handlers.

(** *** What the dispatcher does with a call *)

Lemma invoke_cases env h tool_name args st :
  server.invoke env h tool_name args st = (Raise (InvalidArguments tool_name), st)
  \/ exists i, server.invoke env h tool_name args st = server.handle env i st.
Proof.
  destruct h; simpl.
  - destruct (server.required_str args "query") as [query|]; [|now left].
    destruct (server.optional_int args "count") as [count|]; [|now left].
    right. now exists (server.Search query count).
  - destruct (server.required_str args "stream_id") as [stream_id|];
      [|now left].
    destruct (server.optional_int args "count") as [count|]; [|now left].
    destruct (server.optional_str args "continuation") as [continuation|];
      [|now left].
    right. now exists (server.Collect stream_id count continuation).
  - destruct (server.required_str args "entity_id") as [entity_id|];
      [|now left].
    right. now exists (server.EntityLookup entity_id).
  - destruct (server.required_str args "prefix") as [prefix|]; [|now left].
    destruct (server.optional_int args "count") as [count|]; [|now left].
    right. now exists (server.Autocomplete prefix count).
Qed.

(** A call either fails before any handler runs, sending nothing, or is
    one invocation of a handler. *)
Lemma call_tool_cases env tool_name args st :
  (exists e, server.call_tool env tool_name args st = (Raise e, st))
  \/ exists i, server.call_tool env tool_name args st = server.handle env i st.
Proof.
  unfold server.call_tool.
  destruct (py.get (tools (mcp st)) tool_name) as [t|].
  - destruct (invoke_cases env (fn t) tool_name args st) as [H|H].
    + left. now exists (InvalidArguments tool_name).
    + now right.
  - left. now exists (UnknownTool tool_name).
Qed.

(** Through the started dispatcher, the tool name and arguments of an
    invocation reach exactly that invocation. *)
Lemma call_tool_handle env i st :
  mcp st = spec.registry ->
  server.call_tool env (spec.tool_name i) (spec.arguments i) st
  = server.handle env i st.
Proof.
  intros Htools. unfold server.call_tool. rewrite Htools.
  destruct i as [query [count|]|stream_id [count|] [continuation|]
                |entity_id|prefix [count|]]; reflexivity.
Qed.

Lemma request_of_headers env i :
  headers (spec.request_of env i) = server.HEADERS env
  /\ timeout (spec.request_of env i) = 30.
Proof. destruct i; split; reflexivity. Qed.

(** What holds of every request a handler sends holds of every request
    sent in a run of the dispatcher. *)
Lemma after_sent_all env (P : Request -> Prop) acts st :
  (forall i, P (spec.request_of env i)) ->
  Forall P (sent st) -> Forall P (sent (server.after env acts st)).
Proof.
  intros HP. revert st.
  induction acts as [|a acts IH]; intros st Hst; simpl; [exact Hst|].
  apply IH. destruct a as [|tool_name args]; simpl; [exact Hst|].
  destruct (call_tool_cases env tool_name args st) as [[e H]|[i H]];
    rewrite H; simpl.
  - exact Hst.
  - rewrite handle_run. simpl. apply Forall_app. split; [exact Hst|].
    constructor; [apply HP|constructor].
Qed.

(** *** The decimal text of a count *)

Lemma to_int_proper n :
  Z.to_int n <> Decimal.Pos Decimal.Nil /\ Z.to_int n <> Decimal.Neg Decimal.Nil.
Proof.
  destruct n as [|p|p]; simpl; split; try discriminate;
    intros H; injection H as H; now apply (DecimalPos.Unsigned.to_uint_nonnil p).
Qed.

(** The text of an integer reads back as that integer. *)
Lemma str_parses_back n :
  option_map Z.of_int (NilZero.int_of_string (py.str n)) = Some n.
Proof.
  unfold py.str. destruct (to_int_proper n) as [H1 H2].
  rewrite (NilZero.isi _ H1 H2). simpl. now rewrite DecimalZ.of_to.
Qed.

(** ** The claims *)

(** C1 (as amended).  A call of the collect handler with stream id [S],
    count 20 (given or defaulted) and no continuation sends exactly one GET
    to the stream-contents endpoint with parameters streamId=S and
    count="20" and no continuation key; with a non-empty continuation
    string the parameters contain that continuation in addition. *)
Theorem collect_request_params (env : Env) (S : string) (count : option Z)
    (st : State) :
  count = Some 20 \/ count = None ->
  let get ps :=
    {| method := GET; url := "https://api.feedly.com/v3/streams/contents";
       params := Some ps; json := None;
       headers := server.HEADERS env; timeout := 30 |} in
  sent (snd (server.collect env S count None st))
    = sent st ++ [get [("streamId", S); ("count", "20")]]
  /\ forall c : string, c <> "" ->
       sent (snd (server.collect env S count (Some c) st))
       = sent st ++ [get [("streamId", S); ("count", "20"); ("continuation", c)]].
Proof.
  intros Hcount get. split.
  - rewrite collect_run. destruct Hcount; subst count; reflexivity.
  - intros c Hc. rewrite collect_run.
    destruct c as [|a c]; [contradiction|].
    destruct Hcount; subst count; reflexivity.
Qed.

Lemma collect_request_params_witness :
  sent (snd (server.collect (sample.api (Some "t0k") 200 "{}")
               "feed/1" (Some 20) (Some "page2") sample.fresh))
  = [ {| method := GET; url := "https://api.feedly.com/v3/streams/contents";
         params := Some [("streamId", "feed/1"); ("count", "20");
                         ("continuation", "page2")];
         json := None;
         headers := [("Authorization", "Bearer t0k");
                     ("accept", "application/json")];
         timeout := 30 |} ].
Proof.
  refine (proj2 (collect_request_params (sample.api (Some "t0k") 200 "{}")
                   "feed/1" (Some 20) sample.fresh (or_introl eq_refl))
                "page2" _).
  discriminate.
Defined.

(** C1 as stated fails: a supplied continuation that is the empty string
    is not added to the parameters. *)
Lemma collect_continuation_counterexample :
  ~ (forall (env : Env) (S c : string) (st : State),
       sent (snd (server.collect env S (Some 20) (Some c) st))
       = sent st ++
         [ {| method := GET;
              url := "https://api.feedly.com/v3/streams/contents";
              params := Some [("streamId", S); ("count", "20");
                              ("continuation", c)];
              json := None;
              headers := server.HEADERS env; timeout := 30 |} ]).
Proof.
  intros H.
  specialize (H (sample.api None 200 "{}") "feed/1" "" sample.fresh).
  vm_compute in H. discriminate H.
Qed.

(** C10.  When the continuation supplied to the collect handler is the
    empty string, the GET carries no continuation parameter; in general
    the key is present exactly when the supplied value is truthy. *)
Theorem collect_continuation_truthy (env : Env) (S : string)
    (count : option Z) (st : State) :
  let get ps :=
    {| method := GET; url := "https://api.feedly.com/v3/streams/contents";
       params := Some ps; json := None;
       headers := server.HEADERS env; timeout := 30 |} in
  sent (snd (server.collect env S count (Some "") st))
    = sent st ++ [get [("streamId", S); ("count", py.str (py.arg count 20))]]
  /\ forall continuation : option string,
       exists ps,
         sent (snd (server.collect env S count continuation st))
           = sent st ++ [get ps]
         /\ py.contains ps "continuation" = py.truthy continuation.
Proof.
  intros get. split.
  - now rewrite collect_run.
  - intros continuation. rewrite collect_run.
    destruct continuation as [[|a c]|]; eexists; split; reflexivity.
Qed.

(** C5 (as amended).  For every query string the search handler sends
    exactly one POST to the search endpoint, with JSON body [{query}] and
    the count, as decimal text, as a query parameter; the count is 10 when
    omitted; and when the response status is in 200..299 the handler
    returns the decoded body of the response.  (The supplied count ranges
    over the integers that [str] converts.) *)
Theorem search_posts_query (env : Env) (query : string) (st : State) :
  let post text :=
    {| method := POST; url := "https://api.feedly.com/v3/search/contents";
       params := Some [("count", text)];
       json := Some (JObject [("query", JString query)]);
       headers := server.HEADERS env; timeout := 30 |} in
  (forall n : Z,
     py.printable n ->
     sent (snd (server.search env query (Some n) st))
       = sent st ++ [post (py.str n)]
     /\ option_map Z.of_int (NilZero.int_of_string (py.str n)) = Some n)
  /\ sent (snd (server.search env query None st)) = sent st ++ [post "10"]
  /\ forall (count : option Z) (req : Request) (r : Response),
       sent (snd (server.search env query count st)) = sent st ++ [req] ->
       upstream env (sent st) req = Responded r ->
       200 <= status_code r <= 299 ->
       fst (server.search env query count st)
       = match json_loads env (content r) with
         | Some v => Ok v
         | None => Raise (JSONDecodeError (content r))
         end.
Proof.
  intros post. split; [|split].
  - intros n _. split; [now rewrite search_run|apply str_parses_back].
  - now rewrite search_run.
  - intros count req r Hsent Hr [Hlo Hhi]. revert Hsent.
    rewrite search_run. unfold fst, snd, spec.sending, sent at 1.
    intros Hsent. apply app_inv_head in Hsent.
    assert (Hreq : spec.request_of env (server.Search query count) = req)
      by (injection Hsent as Hsent; exact Hsent).
    rewrite Hreq, Hr. unfold spec.deliver, is_success.
    destruct (Z.leb_spec 200 (status_code r)); [|lia].
    destruct (Z.leb_spec (status_code r) 299); [|lia].
    reflexivity.
Qed.

Lemma search_posts_query_witness :
  sent (snd (server.search (sample.api (Some "t0k") 200 "{}") "rust"
               (Some 25) sample.fresh))
  = [ {| method := POST; url := "https://api.feedly.com/v3/search/contents";
         params := Some [("count", "25")];
         json := Some (JObject [("query", JString "rust")]);
         headers := [("Authorization", "Bearer t0k");
                     ("accept", "application/json")];
         timeout := 30 |} ]
  /\ fst (server.search (sample.api (Some "t0k") 200 "{}") "rust"
            (Some 25) sample.fresh)
     = Ok (JObject []).
Proof.
  pose proof (search_posts_query (sample.api (Some "t0k") 200 "{}")
                "rust" sample.fresh) as H.
  cbv zeta in H. destruct H as (Hcount & _ & Hreturn). split.
  - refine (proj1 (Hcount 25 _)). vm_compute. reflexivity.
  - refine (Hreturn (Some 25) _ {| status_code := 200; content := "{}" |}
              eq_refl eq_refl _).
    split; discriminate.
Defined.

(** C5 as stated fails: the decoded body is not returned when the status
    of the response is outside 200..299, even if the body decodes. *)
Lemma search_returns_body_counterexample :
  ~ (forall (env : Env) (query : string) (count : option Z) (st : State)
            (req : Request) (r : Response) (v : JSON),
       sent (snd (server.search env query count st)) = sent st ++ [req] ->
       upstream env (sent st) req = Responded r ->
       json_loads env (content r) = Some v ->
       fst (server.search env query count st) = Ok v).
Proof.
  intros H.
  specialize (H (sample.api None 500 "{}") "rust" None sample.fresh
                _ {| status_code := 500; content := "{}" |} (JObject [])
                eq_refl eq_refl eq_refl).
  vm_compute in H. discriminate H.
Qed.

(** C6.  The request sent by any of the four handlers carries the
    Authorization header made of the word Bearer and the configured token
    ([Bearer None] when none is configured) and the application/json
    accept header, and a timeout of 30; so does every request sent in any
    run of the started dispatcher. *)
Theorem upstream_calls_carry_headers (env : Env) (token : option string) :
  getenv env "FEEDLY_TOKEN" = token ->
  let expected :=
    [("Authorization",
      match token with
      | Some t => ("Bearer " ++ t)%string
      | None => "Bearer None"%string
      end);
     ("accept", "application/json"%string)] in
  (forall (i : server.Invocation) (st : State),
     exists req : Request,
       sent (snd (server.handle env i st)) = sent st ++ [req]
       /\ headers req = expected
       /\ timeout req = 30)
  /\ forall acts : list server.Activity,
       Forall (fun req => headers req = expected /\ timeout req = 30)
         (sent (server.after env acts {| mcp := spec.registry; sent := [] |})).
Proof.
  intros Htoken expected.
  assert (Hexp : server.HEADERS env = expected).
  { unfold server.HEADERS, server.TOKEN, expected. rewrite Htoken.
    now destruct token. }
  rewrite <- Hexp. split.
  - intros i st. exists (spec.request_of env i).
    split; [apply handle_sent|apply request_of_headers].
  - intros acts. apply after_sent_all.
    + intros i. apply request_of_headers.
    + constructor.
Qed.

Lemma upstream_calls_carry_headers_witness :
  exists req : Request,
    sent (snd (server.handle (sample.api (Some "t0k") 200 "{}")
                 (server.EntityLookup "gz:org:apple") sample.fresh))
    = sent sample.fresh ++ [req]
    /\ headers req = [("Authorization", "Bearer t0k"%string);
                      ("accept", "application/json"%string)]
    /\ timeout req = 30.
Proof.
  exact (proj1 (upstream_calls_carry_headers
                  (sample.api (Some "t0k") 200 "{}") (Some "t0k") eq_refl)
           (server.EntityLookup "gz:org:apple") sample.fresh).
Defined.

(** C3.  When the response to a handler's request has a status outside
    200..299, the handler raises an error carrying that response (status
    and body); exactly one request has been sent; nothing in the handler
    catches the error, so it is the outcome the caller gets.  When the
    status is in 200..299 the handler returns what decoding the body
    gives. *)
Theorem upstream_status_surfaced (env : Env) (i : server.Invocation)
    (st : State) (r : Response) :
  upstream env (sent st) (spec.request_of env i) = Responded r ->
  sent (snd (server.handle env i st)) = sent st ++ [spec.request_of env i]
  /\ (status_code r < 200 \/ 299 < status_code r ->
      fst (server.handle env i st) = Raise (HTTPStatusError r))
  /\ (200 <= status_code r <= 299 ->
      fst (server.handle env i st)
      = match json_loads env (content r) with
        | Some v => Ok v
        | None => Raise (JSONDecodeError (content r))
        end).
Proof.
  intros Hr. rewrite handle_run. unfold fst, snd. rewrite Hr.
  unfold spec.deliver, is_success. repeat split.
  - intros [Hlo|Hhi].
    + destruct (Z.leb_spec 200 (status_code r)); [lia|reflexivity].
    + destruct (Z.leb_spec (status_code r) 299); [lia|].
      now rewrite andb_false_r.
  - intros [Hlo Hhi].
    destruct (Z.leb_spec 200 (status_code r)); [|lia].
    destruct (Z.leb_spec (status_code r) 299); [|lia].
    reflexivity.
Qed.

Lemma upstream_status_surfaced_witness :
  fst (server.handle (sample.api (Some "t0k") 500 "overloaded")
         (server.Search "rust" None) sample.fresh)
  = Raise (HTTPStatusError {| status_code := 500; content := "overloaded" |}).
Proof.
  refine (proj1 (proj2 (upstream_status_surfaced
                          (sample.api (Some "t0k") 500 "overloaded")
                          (server.Search "rust" None) sample.fresh
                          {| status_code := 500; content := "overloaded" |}
                          eq_refl)) _).
  right. reflexivity.
Defined.

(** C7.  The result of a handler is made from the upstream outcome alone:
    two runs that differ in their environment variables (hence in the
    token) but get the same outcome for their request end with the same
    result, and a returned value is the decoding of the response body. *)
Theorem credential_not_in_result (env1 env2 : Env) (i : server.Invocation)
    (st1 st2 : State) (o : Outcome) :
  (forall s, json_loads env1 s = json_loads env2 s) ->
  upstream env1 (sent st1) (spec.request_of env1 i) = o ->
  upstream env2 (sent st2) (spec.request_of env2 i) = o ->
  sent (snd (server.handle env1 i st1)) = sent st1 ++ [spec.request_of env1 i]
  /\ sent (snd (server.handle env2 i st2)) = sent st2 ++ [spec.request_of env2 i]
  /\ fst (server.handle env1 i st1) = fst (server.handle env2 i st2)
  /\ forall v, fst (server.handle env1 i st1) = Ok v ->
       exists r, o = Responded r /\ json_loads env1 (content r) = Some v.
Proof.
  intros Hloads H1 H2.
  split; [apply handle_sent|]. split; [apply handle_sent|].
  rewrite !handle_run. unfold fst. rewrite H1, H2.
  unfold spec.deliver. split.
  - destruct o as [r|reason]; [|reflexivity].
    now rewrite Hloads.
  - intros v Hv. destruct o as [r|reason]; [|discriminate Hv].
    exists r. split; [reflexivity|].
    destruct (is_success r); [|discriminate Hv].
    destruct (json_loads env1 (content r)) as [w|]; [|discriminate Hv].
    now inversion Hv.
Qed.

Lemma credential_not_in_result_witness :
  fst (server.handle (sample.api (Some "alpha") 200 "{}")
         (server.EntityLookup "nlp/f/entity/gz:org:apple") sample.fresh)
  = fst (server.handle (sample.api (Some "beta") 200 "{}")
           (server.EntityLookup "nlp/f/entity/gz:org:apple") sample.fresh).
Proof.
  exact (proj1 (proj2 (proj2 (credential_not_in_result
                  (sample.api (Some "alpha") 200 "{}")
                  (sample.api (Some "beta") 200 "{}")
                  (server.EntityLookup "nlp/f/entity/gz:org:apple")
                  sample.fresh sample.fresh
                  (Responded {| status_code := 200; content := "{}" |})
                  (fun _ => eq_refl) eq_refl eq_refl)))).
Defined.

(** C9.  With [FEEDLY_TOKEN] unset, startup still succeeds, the token is
    the absent value, and the request of every handler is sent with the
    Authorization header [Bearer None]. *)
Theorem missing_token_bearer_none (env : Env) (i : server.Invocation)
    (st : State) :
  getenv env "FEEDLY_TOKEN" = None ->
  server.TOKEN env = None
  /\ (exists st0, server.startup = Ok st0)
  /\ exists req : Request,
       sent (snd (server.handle env i st)) = sent st ++ [req]
       /\ py.get (headers req) "Authorization" = Some "Bearer None".
Proof.
  intros Hunset. split; [exact Hunset|]. split.
  - eexists. reflexivity.
  - exists (spec.request_of env i). split; [apply handle_sent|].
    destruct i; simpl; now rewrite Hunset.
Qed.

Lemma missing_token_bearer_none_witness :
  exists req : Request,
    sent (snd (server.handle (sample.api None 200 "{}")
                 (server.Autocomplete "Nvid" None) sample.fresh))
    = sent sample.fresh ++ [req]
    /\ py.get (headers req) "Authorization" = Some "Bearer None".
Proof.
  exact (proj2 (proj2 (missing_token_bearer_none (sample.api None 200 "{}")
                         (server.Autocomplete "Nvid" None) sample.fresh
                         eq_refl))).
Defined.

(** C4.  Startup registers the four tools, and after any sequence of
    list-tools and call-tool requests the dispatcher still lists exactly
    those four descriptors, each name once, in registration order:
    search, collect, entity lookup, entity autocomplete. *)
Theorem list_tools_stable (env : Env) (acts : list server.Activity) :
  exists st0 : State,
    server.startup = Ok st0
    /\ fst (server.step env server.ListTools (server.after env acts st0))
       = server.Tools [server.search_tool; server.collect_tool;
                       server.entity_lookup_tool; server.autocomplete_tool]
    /\ map name (list_tools (mcp (server.after env acts st0)))
       = ["feedly.search"; "feedly.collect"; "feedly.entity_lookup";
          "feedly.autocomplete"]
    /\ NoDup (map name (list_tools (mcp (server.after env acts st0)))).
Proof.
  exists {| mcp := spec.registry; sent := [] |}.
  split; [reflexivity|].
  simpl server.step. unfold fst. rewrite !after_mcp.
  split; [reflexivity|]. split; [reflexivity|].
  simpl. repeat constructor; simpl; intuition discriminate.
Qed.

(** C2 (as amended).  For every entity id the entity lookup handler sends
    exactly one GET to the entities endpoint, at the path made with
    [quote_plus] of the id: a space becomes a plus sign, every other byte
    that is not a letter, a digit or one of [_.-~] becomes [%XX].  No
    slash and no colon survives, ids without a space come out
    percent-encoded, and decoding the path segment gives the id back. *)
Theorem entity_lookup_encodes_id (env : Env) (entity_id : string)
    (st : State) :
  sent (snd (server.entity_lookup env entity_id st))
  = sent st ++
    [ {| method := GET;
         url := ("https://api.feedly.com/v3/entities/"
                 ++ urllib.quote_plus entity_id)%string;
         params := None; json := None;
         headers := server.HEADERS env; timeout := 30 |} ]
  /\ urllib.quote_plus entity_id = spec.form_encode entity_id
  /\ py.str_contains (urllib.quote_plus entity_id) "/" = false
  /\ py.str_contains (urllib.quote_plus entity_id) ":" = false
  /\ (py.str_contains entity_id " " = false ->
      urllib.quote_plus entity_id = spec.percent_encode entity_id)
  /\ urllib.unquote_plus (urllib.quote_plus entity_id) = entity_id.
Proof.
  split.
  - rewrite entity_lookup_run. unfold snd, spec.sending, sent at 1.
    unfold spec.request_of. now rewrite quote_plus_bytes.
  - split; [apply quote_plus_bytes|].
    rewrite (quote_plus_bytes entity_id) at 1 2.
    destruct (form_encode_escapes entity_id) as [H1 H2].
    repeat split; trivial.
    + apply quote_plus_percent_encode.
    + apply unquote_plus_quote_plus.
Qed.

Lemma entity_lookup_encodes_id_witness :
  urllib.quote_plus "nlp/f/entity/gz:org:apple"
  = spec.percent_encode "nlp/f/entity/gz:org:apple".
Proof.
  exact (proj1 (proj2 (proj2 (proj2 (proj2
           (entity_lookup_encodes_id (sample.api None 200 "{}")
              "nlp/f/entity/gz:org:apple" sample.fresh)))))
           eq_refl).
Defined.

(** C2 as stated fails: for an id with a space the path is not the
    percent-encoding of the id (the space is sent as a plus sign). *)
Lemma entity_lookup_percent_counterexample :
  ~ (forall (env : Env) (entity_id : string) (st : State),
       sent (snd (server.entity_lookup env entity_id st))
       = sent st ++
         [ {| method := GET;
              url := ("https://api.feedly.com/v3/entities/"
                      ++ spec.percent_encode entity_id)%string;
              params := None; json := None;
              headers := server.HEADERS env; timeout := 30 |} ]).
Proof.
  intros H.
  specialize (H (sample.api None 200 "{}") "new york" sample.fresh).
  vm_compute in H. discriminate H.
Qed.

(** ** The client *)

Ltac client_unfold :=
  unfold client.run, client.async_with, bind, ret, client.perform,
    client.enter_transport, client.session_call_tool, client.print,
    client.start;
  simpl.

Ltac client_cases env :=
  client_unfold;
  repeat match goal with
         | |- context [client.fails env ?h ?a] =>
             destruct (client.fails env h a); client_unfold
         end.






(** A failed handshake: no tool call, status 1, the message on standard
    error. *)
Example client_handshake_failure :
  client.main sample.deaf_peer
    {| client.positionals := ["feedly.search"];
       client.opt_url := Some "http://localhost:8080/mcp";
       client.opt_args := Some "{}" |}
  = {| client.status := 1;
       client.final :=
         {| client.actions :=
              [client.Connect "http://localhost:8080/mcp"; client.OpenSession;
               client.Initialize; client.CloseSession; client.Disconnect];
            client.stdout := [];
            client.stderr := ["Connection closed"] |} |}.
Proof. reflexivity. Qed.

(** ** Checks on concrete inputs *)

Example quote_plus_entity_id :
  urllib.quote_plus "nlp/f/entity/gz:org:apple"
  = "nlp%2Ff%2Fentity%2Fgz%3Aorg%3Aapple"%string.
Proof. reflexivity. Qed.

Example quote_plus_space :
  urllib.quote_plus "new york" = "new+york"%string
  /\ spec.percent_encode "new york" = "new%20york"%string.
Proof. split; reflexivity. Qed.

Example str_of_int :
  py.str 20 = "20"%string /\ py.str 0 = "0"%string
  /\ py.str (-7) = "-7"%string.
Proof. repeat split; reflexivity. Qed.

Example unknown_tool_sends_nothing :
  server.call_tool (sample.api None 200 "{}") "feedly.unknown" []
    {| mcp := spec.registry; sent := [] |}
  = (Raise (UnknownTool "feedly.unknown"),
     {| mcp := spec.registry; sent := [] |}).
Proof. reflexivity. Qed.

Example collect_through_dispatcher :
  sent (snd (server.call_tool (sample.api (Some "t0k") 200 "{}")
               "feedly.collect"
               [("stream_id", JString "feed/1"); ("count", JInt 20)]
               {| mcp := spec.registry; sent := [] |}))
  = [ {| method := GET; url := "https://api.feedly.com/v3/streams/contents";
         params := Some [("streamId", "feed/1"); ("count", "20")];
         json := None;
         headers := [("Authorization", "Bearer t0k");
                     ("accept", "application/json")];
         timeout := 30 |} ].
Proof. reflexivity. Qed.

(* ===================================================================== *)
(** * Further properties                                                  *)
(* ===================================================================== *)

(** ** The handlers *)

Lemma handle_result env i st :
  fst (server.handle env i st)
  = spec.deliver (json_loads env) (upstream env (sent st) (spec.request_of env i)).
Proof. now rewrite handle_run. Qed.

(** X1.  The autocomplete handler sends exactly one GET to the
    autocomplete endpoint with parameters prefix and count and no body:
    a supplied count goes out as its decimal text, an omitted count as 10.
    When the response status is in 200..299 it returns what decoding the
    body gives.  (The supplied count ranges over the integers that [str]
    converts.) *)
Theorem autocomplete_request (env : Env) (prefix : string) (st : State) :
  let get text :=
    {| method := GET; url := "https://api.feedly.com/v3/entities/autocomplete";
       params := Some [("prefix", prefix); ("count", text)]; json := None;
       headers := server.HEADERS env; timeout := 30 |} in
  (forall n : Z,
     py.printable n ->
     sent (snd (server.autocomplete_entities env prefix (Some n) st))
       = sent st ++ [get (py.str n)]
     /\ option_map Z.of_int (NilZero.int_of_string (py.str n)) = Some n)
  /\ sent (snd (server.autocomplete_entities env prefix None st))
     = sent st ++ [get "10"]
  /\ forall (count : option Z) (req : Request) (r : Response),
       sent (snd (server.autocomplete_entities env prefix count st))
         = sent st ++ [req] ->
       upstream env (sent st) req = Responded r ->
       200 <= status_code r <= 299 ->
       fst (server.autocomplete_entities env prefix count st)
       = match json_loads env (content r) with
         | Some v => Ok v
         | None => Raise (JSONDecodeError (content r))
         end.
Proof.
  intros get. split; [|split].
  - intros n _.
    split; [now rewrite autocomplete_entities_run|apply str_parses_back].
  - now rewrite autocomplete_entities_run.
  - intros count req r Hsent Hr [Hlo Hhi]. revert Hsent.
    rewrite autocomplete_entities_run. unfold fst, snd, spec.sending, sent at 1.
    intros Hsent. apply app_inv_head in Hsent.
    assert (Hreq : spec.request_of env (server.Autocomplete prefix count) = req)
      by (injection Hsent as Hsent; exact Hsent).
    rewrite Hreq, Hr. unfold spec.deliver, is_success.
    destruct (Z.leb_spec 200 (status_code r)); [|lia].
    destruct (Z.leb_spec (status_code r) 299); [|lia].
    reflexivity.
Qed.

Lemma autocomplete_request_witness :
  sent (snd (server.autocomplete_entities (sample.api (Some "t0k") 200 "{}")
               "Nvid" (Some 5) sample.fresh))
  = [ {| method := GET;
         url := "https://api.feedly.com/v3/entities/autocomplete";
         params := Some [("prefix", "Nvid"); ("count", "5")];
         json := None;
         headers := [("Authorization", "Bearer t0k");
                     ("accept", "application/json")];
         timeout := 30 |} ]
  /\ fst (server.autocomplete_entities (sample.api (Some "t0k") 200 "{}")
            "Nvid" (Some 5) sample.fresh)
     = Ok (JObject []).
Proof.
  pose proof (autocomplete_request (sample.api (Some "t0k") 200 "{}")
                "Nvid" sample.fresh) as H.
  cbv zeta in H. destruct H as (Hcount & _ & Hreturn). split.
  - refine (proj1 (Hcount 5 _)). vm_compute. reflexivity.
  - refine (Hreturn (Some 5) _ {| status_code := 200; content := "{}" |}
              eq_refl eq_refl _).
    split; discriminate.
Defined.

(** X2.  When no response comes back for a handler's request (connection
    failure, timeout), the handler raises the transport error; the one
    request has been sent and nothing is tried again. *)
Theorem transport_failure_raised (env : Env) (i : server.Invocation)
    (st : State) (reason : string) :
  upstream env (sent st) (spec.request_of env i) = Failed reason ->
  server.handle env i st
  = (Raise (TransportError reason),
     {| mcp := mcp st; sent := sent st ++ [spec.request_of env i] |}).
Proof. intros H. rewrite handle_run. unfold spec.deliver. now rewrite H. Qed.

Lemma transport_failure_raised_witness :
  server.handle sample2.unreachable (server.Collect "feed/1" None None)
    sample.fresh
  = (Raise (TransportError "connect timeout"),
     {| mcp := server.mcp0;
        sent := [spec.request_of sample2.unreachable
                   (server.Collect "feed/1" None None)] |}).
Proof.
  exact (transport_failure_raised sample2.unreachable
           (server.Collect "feed/1" None None) sample.fresh
           "connect timeout" eq_refl).
Defined.

(** ** The encoding of entity ids *)

Lemma string_append_assoc (s t u : string) :
  ((s ++ t) ++ u)%string = (s ++ (t ++ u))%string.
Proof. induction s as [|c s IH]; simpl; [reflexivity|now rewrite IH]. Qed.

Lemma form_encode_append s t :
  spec.form_encode (s ++ t) = (spec.form_encode s ++ spec.form_encode t)%string.
Proof.
  induction s as [|c s IH]; [reflexivity|].
  change (String c s ++ t)%string with (String c (s ++ t)%string).
  rewrite !form_encode_cons, IH. symmetry. apply string_append_assoc.
Qed.

Lemma all_bytes_append p s t :
  obs.all_bytes p (s ++ t) = obs.all_bytes p s && obs.all_bytes p t.
Proof.
  induction s as [|c s IH]; simpl; [reflexivity|].
  now rewrite IH, andb_assoc.
Qed.

Lemma form_encode_byte_alphabet c :
  obs.all_bytes obs.encoded_byte (spec.form_encode_byte c) = true.
Proof. each_byte c; reflexivity. Qed.

Lemma form_encode_alphabet s :
  obs.all_bytes obs.encoded_byte (spec.form_encode s) = true.
Proof.
  induction s as [|c s IH]; [reflexivity|].
  now rewrite form_encode_cons, all_bytes_append, form_encode_byte_alphabet, IH.
Qed.

(** A byte outside a set of allowed bytes does not occur in a string made
    of allowed bytes. *)
Lemma all_bytes_excludes p s c :
  obs.all_bytes p s = true -> p c = false -> py.str_contains s c = false.
Proof.
  intros Hs Hc. induction s as [|a s IH]; [reflexivity|].
  simpl in Hs. apply andb_true_iff in Hs. destruct Hs as [Ha Hs].
  rewrite str_contains_cons, (IH Hs), orb_false_r.
  destruct (Ascii.eqb_spec a c) as [->|]; [congruence|reflexivity].
Qed.

Lemma form_encode_byte_length c :
  (1 <= String.length (spec.form_encode_byte c) <= 3)%nat.
Proof. each_byte c; simpl; lia. Qed.

Lemma string_length_append s t :
  String.length (s ++ t) = (String.length s + String.length t)%nat.
Proof. induction s as [|c s IH]; simpl; [reflexivity|now rewrite IH]. Qed.

Lemma form_encode_byte_safe c :
  urllib.always_safe c = true -> spec.form_encode_byte c = String c EmptyString.
Proof. each_byte c; simpl; intros H; try reflexivity; discriminate H. Qed.

(** X6.  Distinct entity ids are looked up at distinct URLs: from the
    request sent, the id can be recovered. *)
Theorem entity_lookup_url_injective (env : Env) (a b : string) (st : State) :
  sent (snd (server.entity_lookup env a st))
  = sent (snd (server.entity_lookup env b st)) ->
  a = b.
Proof.
  rewrite !entity_lookup_run. unfold snd, spec.sending, sent at 1 3.
  intros H. apply app_inv_head in H. injection H as H.
  rewrite <- (unquote_plus_quote_plus a), <- (unquote_plus_quote_plus b).
  now rewrite !quote_plus_bytes, H.
Qed.

Lemma entity_lookup_url_injective_witness : "gz:org:apple"%string = "gz:org:apple"%string.
Proof.
  exact (entity_lookup_url_injective (sample.api None 200 "{}")
           "gz:org:apple" "gz:org:apple" sample.fresh eq_refl).
Defined.

(** X7.  The path segment made from an entity id consists of letters,
    digits, the marks [_.-~], [%] and [+] only: an id cannot add a path
    segment, a query string or a fragment to the URL. *)
Theorem entity_segment_alphabet (entity_id : string) :
  obs.all_bytes obs.encoded_byte (urllib.quote_plus entity_id) = true
  /\ py.str_contains (urllib.quote_plus entity_id) "?" = false
  /\ py.str_contains (urllib.quote_plus entity_id) "#" = false
  /\ py.str_contains (urllib.quote_plus entity_id) "&" = false
  /\ py.str_contains (urllib.quote_plus entity_id) "=" = false
  /\ py.str_contains (urllib.quote_plus entity_id) " " = false.
Proof.
  rewrite quote_plus_bytes.
  pose proof (form_encode_alphabet entity_id) as H.
  repeat split; trivial; now apply (all_bytes_excludes _ _ _ H).
Qed.

(** X8.  An id made of letters, digits and the marks [_.-~] only is put
    into the path unchanged. *)
Theorem safe_id_unchanged (entity_id : string) :
  obs.all_bytes urllib.always_safe entity_id = true ->
  urllib.quote_plus entity_id = entity_id.
Proof.
  rewrite quote_plus_bytes.
  induction entity_id as [|c s IH]; [reflexivity|].
  simpl obs.all_bytes. intros H. apply andb_true_iff in H.
  destruct H as [Hc Hs].
  now rewrite form_encode_cons, (form_encode_byte_safe c Hc), (IH Hs).
Qed.

Lemma safe_id_unchanged_witness :
  urllib.quote_plus "Q312-apple_inc.v2~x" = "Q312-apple_inc.v2~x"%string.
Proof. exact (safe_id_unchanged "Q312-apple_inc.v2~x" eq_refl). Defined.

(** X9.  [quote_plus] works byte by byte: the encoding of a concatenation
    is the concatenation of the encodings. *)
Theorem quote_plus_append (s t : string) :
  urllib.quote_plus (s ++ t)
  = (urllib.quote_plus s ++ urllib.quote_plus t)%string.
Proof. rewrite !quote_plus_bytes. apply form_encode_append. Qed.

(** X10.  The encoded id has at least as many characters as the id has
    UTF-8 bytes, and at most three times as many. *)
Theorem quote_plus_length (s : string) :
  (String.length s <= String.length (urllib.quote_plus s)
   <= 3 * String.length s)%nat.
Proof.
  rewrite quote_plus_bytes.
  induction s as [|c s IH]; [simpl; lia|].
  rewrite form_encode_cons, string_length_append.
  pose proof (form_encode_byte_length c). simpl String.length. lia.
Qed.

(** ** Counts and parameters *)

Lemma str_injective a b : py.str a = py.str b -> a = b.
Proof.
  unfold py.str. intros H.
  apply DecimalZ.to_int_inj.
  destruct (to_int_proper a) as [Ha1 Ha2], (to_int_proper b) as [Hb1 Hb2].
  pose proof (NilZero.isi _ Ha1 Ha2) as Ia.
  pose proof (NilZero.isi _ Hb1 Hb2) as Ib.
  rewrite H in Ia. rewrite Ia in Ib. now injection Ib.
Qed.

(** X11.  The count is sent as its decimal text without loss: two search
    calls that send the same request were given the same query and the
    same count. *)
Theorem search_request_injective (env : Env) (q1 q2 : string) (n1 n2 : Z)
    (st : State) :
  sent (snd (server.search env q1 (Some n1) st))
  = sent (snd (server.search env q2 (Some n2) st)) ->
  q1 = q2 /\ n1 = n2.
Proof.
  rewrite !search_run. unfold snd, spec.sending, sent at 1 3.
  intros H. apply app_inv_head in H. injection H as Hn Hq.
  split; [exact Hq|]. now apply str_injective.
Qed.

Lemma search_request_injective_witness :
  "rust"%string = "rust"%string /\ 7 = 7.
Proof.
  exact (search_request_injective (sample.api None 200 "{}")
           "rust" "rust" 7 7 sample.fresh eq_refl).
Defined.

(** X12.  The collect handler sends one GET to the stream-contents
    endpoint whose parameters are streamId, then count, then the
    continuation when it is a non-empty string: a supplied count goes out
    as its decimal text, whatever its value, an omitted count as 20.  (The
    supplied count ranges over the integers that [str] converts.) *)
Theorem collect_request_general (env : Env) (stream_id : string)
    (continuation : option string) (st : State) :
  let get text :=
    {| method := GET; url := "https://api.feedly.com/v3/streams/contents";
       params :=
         Some ([("streamId", stream_id); ("count", text)]
               ++ match continuation with
                  | None => []
                  | Some c =>
                      if String.eqb c "" then [] else [("continuation", c)]
                  end);
       json := None; headers := server.HEADERS env; timeout := 30 |} in
  (forall n : Z,
     py.printable n ->
     sent (snd (server.collect env stream_id (Some n) continuation st))
       = sent st ++ [get (py.str n)]
     /\ option_map Z.of_int (NilZero.int_of_string (py.str n)) = Some n)
  /\ sent (snd (server.collect env stream_id None continuation st))
     = sent st ++ [get "20"].
Proof.
  intros get. split.
  - intros n _. split; [|apply str_parses_back].
    rewrite collect_run. now destruct continuation as [[|a c]|].
  - rewrite collect_run. now destruct continuation as [[|a c]|].
Qed.

Lemma collect_request_general_witness :
  sent (snd (server.collect (sample.api None 200 "{}") "feed/1" (Some (-3))
               (Some "page2") sample.fresh))
  = [ {| method := GET; url := "https://api.feedly.com/v3/streams/contents";
         params := Some [("streamId", "feed/1"); ("count", "-3");
                         ("continuation", "page2")];
         json := None;
         headers := [("Authorization", "Bearer None");
                     ("accept", "application/json")];
         timeout := 30 |} ].
Proof.
  refine (proj1 (proj1 (collect_request_general (sample.api None 200 "{}")
                          "feed/1" (Some "page2") sample.fresh) (-3) _)).
  vm_compute. reflexivity.
Defined.

(** ** The client *)

(** X14.  When the handshake fails, no tool call is issued and nothing is
    printed, but the session is still closed and the transport
    disconnected, in that order. *)
Theorem client_handshake_failure_cleanup (env : client.Env)
    (u t : string) (a : JSON) (message : string) :
  client.fails env [] (client.Connect u) = None ->
  client.fails env [client.Connect u] client.OpenSession = None ->
  client.fails env [client.Connect u; client.OpenSession] client.Initialize
    = Some message ->
  client.actions (snd (client.run env u t a client.start))
    = [client.Connect u; client.OpenSession; client.Initialize;
       client.CloseSession; client.Disconnect]
  /\ client.stdout (snd (client.run env u t a client.start)) = []
  /\ exists e, fst (client.run env u t a client.start) = Raise e.
Proof.
  intros _ H2 H3. client_unfold.
  rewrite H2. client_unfold. rewrite H3.
  client_cases env; repeat split; eexists; reflexivity.
Qed.

Lemma client_handshake_failure_cleanup_witness :
  client.actions
    (snd (client.run sample.deaf_peer "http://localhost:8080/mcp"
            "feedly.search" (JObject []) client.start))
  = [client.Connect "http://localhost:8080/mcp"; client.OpenSession;
     client.Initialize; client.CloseSession; client.Disconnect].
Proof.
  exact (proj1 (client_handshake_failure_cleanup sample.deaf_peer
                  "http://localhost:8080/mcp" "feedly.search" (JObject [])
                  "Connection closed" eq_refl eq_refl eq_refl)).
Defined.

(** X15.  Whatever fails later, a transport that was connected is
    disconnected as the last action, and a session that was opened is
    closed just before that. *)
Theorem client_always_cleans_up (env : client.Env) (u t : string) (a : JSON) :
  client.fails env [] (client.Connect u) = None ->
  last (client.actions (snd (client.run env u t a client.start)))
       (client.Connect u)
  = client.Disconnect
  /\ (client.fails env [client.Connect u] client.OpenSession = None ->
      last (removelast (client.actions (snd (client.run env u t a client.start))))
           (client.Connect u)
      = client.CloseSession).
Proof.
  intros _. client_unfold.
  destruct (client.fails env [client.Connect u] client.OpenSession) eqn:H2;
    client_unfold.
  - client_cases env; split; try reflexivity; discriminate.
  - client_cases env; split; reflexivity.
Qed.

Lemma client_always_cleans_up_witness :
  last (client.actions
          (snd (client.run sample.deaf_peer "http://localhost:8080"
                  "feedly.search" (JObject []) client.start)))
       (client.Connect "http://localhost:8080")
  = client.Disconnect.
Proof.
  exact (proj1 (client_always_cleans_up sample.deaf_peer
                  "http://localhost:8080" "feedly.search" (JObject [])
                  eq_refl)).
Defined.

(** X16.  The client prints at most once, and only the dumped result of
    the one tool call it made after a successful handshake. *)
Theorem client_prints_only_result (env : client.Env) (u t : string) (a : JSON) :
  client.stdout (snd (client.run env u t a client.start)) = []
  \/ (client.stdout (snd (client.run env u t a client.start))
      = [client.model_dump
           (client.answer env
              [client.Connect u; client.OpenSession; client.Initialize] t a)]
      /\ spec.calls (client.actions (snd (client.run env u t a client.start)))
         = 1%nat).
Proof.
  client_cases env; (now left) || (right; split; reflexivity).
Qed.







(** ** The test module *)

Section Fixture.

Variable env : tests.Env.

Lemma attempt_refused k tr :
  tests.accepts env k = false ->
  tests.attempt env k tr
  = (Ok false,
     tr ++ [tests.CreateConnection "localhost" 8080 500; tests.Sleep 500]).
Proof.
  intros H. unfold tests.attempt, bind, tests.emit, ret. rewrite H.
  now rewrite <- app_assoc.
Qed.

Lemma attempt_accepted k tr :
  tests.accepts env k = true ->
  tests.attempt env k tr
  = (Ok true,
     tr ++ [tests.CreateConnection "localhost" 8080 500; tests.CloseConnection]).
Proof.
  intros H. unfold tests.attempt, bind, tests.emit, ret. rewrite H.
  now rewrite <- app_assoc.
Qed.

Lemma poll_step n k tr :
  tests.poll env (S n) k tr
  = match tests.attempt env k tr with
    | (Ok true, tr') => (Ok true, tr')
    | (Ok false, tr') => tests.poll env n (S k) tr'
    | (Raise e, tr') => (Raise e, tr')
    end.
Proof.
  simpl. unfold bind at 1.
  destruct (tests.attempt env k tr) as [[[|]|e] tr']; reflexivity.
Qed.

(** While every attempt is refused the loop goes on, sleeping each time. *)
Lemma poll_refused n k tr :
  (forall j, (k <= j < k + n)%nat -> tests.accepts env j = false) ->
  tests.poll env n k tr = (Ok false, tr ++ tests.refused n).
Proof.
  revert k tr. induction n as [|n IH]; intros k tr H.
  - simpl. unfold ret. now rewrite app_nil_r.
  - rewrite poll_step, attempt_refused by (apply H; lia).
    rewrite IH by (intros j Hj; apply H; lia).
    now rewrite <- app_assoc.
Qed.

(** The loop stops at the first accepted attempt. *)
Lemma poll_accepted n k m tr :
  (m < n)%nat ->
  (forall j, (j < m)%nat -> tests.accepts env (k + j) = false) ->
  tests.accepts env (k + m) = true ->
  tests.poll env n k tr
  = (Ok true,
     tr ++ tests.refused m
        ++ [tests.CreateConnection "localhost" 8080 500; tests.CloseConnection]).
Proof.
  revert n k tr. induction m as [|m IH]; intros n k tr Hm Hno Hyes.
  - destruct n as [|n]; [lia|].
    rewrite poll_step, attempt_accepted; [reflexivity|].
    now rewrite Nat.add_0_r in Hyes.
  - destruct n as [|n]; [lia|].
    rewrite poll_step, attempt_refused.
    + rewrite (IH n (S k)).
      * now rewrite <- app_assoc.
      * lia.
      * intros j Hj. replace (S k + j)%nat with (k + S j)%nat by lia.
        apply Hno. lia.
      * now replace (S k + m)%nat with (k + S m)%nat by lia.
    + replace k with (k + 0)%nat by lia. apply Hno. lia.
Qed.

(** The loop never raises, tries at most [n] times and sleeps at most
    [n] half seconds; it reports a connection exactly when one of its
    [n] attempts is accepted. *)
Lemma poll_bounds n k tr :
  exists (b : bool) (new : list tests.Action),
    tests.poll env n k tr = (Ok b, tr ++ new)
    /\ (tests.attempts new <= n)%nat
    /\ 0 <= tests.slept new <= 500 * Z.of_nat n
    /\ (b = true <-> exists j, (k <= j < k + n)%nat /\ tests.accepts env j = true).
Proof.
  revert k tr. induction n as [|n IH]; intros k tr.
  - exists false, []. simpl. unfold ret. rewrite app_nil_r.
    split; [reflexivity|]. split; [lia|]. split; [lia|]. split.
    + discriminate.
    + intros [j [Hj _]]. lia.
  - rewrite poll_step. destruct (tests.accepts env k) eqn:Hk.
    + rewrite attempt_accepted by exact Hk.
      exists true, [tests.CreateConnection "localhost" 8080 500;
                    tests.CloseConnection].
      split; [reflexivity|]. split; [simpl; lia|].
      split; [change (0 <= 0 <= 500 * Z.of_nat (S n)); lia|]. split.
      * intros _. exists k. split; [lia|exact Hk].
      * reflexivity.
    + rewrite attempt_refused by exact Hk.
      destruct (IH (S k) (tr ++ [tests.CreateConnection "localhost" 8080 500;
                                 tests.Sleep 500]))
        as (b & new & Hpoll & Hatt & Hslept & Hb).
      exists b, (tests.CreateConnection "localhost" 8080 500
                 :: tests.Sleep 500 :: new).
      rewrite Hpoll, <- app_assoc.
      split; [reflexivity|].
      split; [change (S (tests.attempts new) <= S n)%nat; lia|].
      split; [change (0 <= 500 + tests.slept new <= 500 * Z.of_nat (S n)); lia|].
      split.
      * intros Htrue. destruct (proj1 Hb Htrue) as [j [Hj Hacc]].
        exists j. split; [lia|exact Hacc].
      * intros [j [Hj Hacc]]. apply Hb. exists j. split; [|exact Hacc].
        assert (j <> k) by (intros ->; congruence). lia.
Qed.

End Fixture.

(** X20.  The fixture starts the server and tries to connect; when the
    first accepted attempt is attempt number [m] (counting from 0, with
    [m < 20]) it has slept [m] times, runs the tests, and then terminates
    the server and waits for it. *)
Theorem fixture_waits_for_server (env : tests.Env) (m : nat)
    (body : tests.T unit) :
  (m < 20)%nat ->
  (forall j, (j < m)%nat -> tests.accepts env j = false) ->
  tests.accepts env m = true ->
  let ready :=
    [tests.Popen ["python"; "server.py"]] ++ tests.refused m
    ++ [tests.CreateConnection "localhost" 8080 500; tests.CloseConnection] in
  tests.server_proc env body []
  = (fst (body ready), snd (body ready) ++ [tests.Terminate; tests.Wait]).
Proof.
  intros Hm Hno Hyes ready. unfold tests.server_proc.
  unfold bind at 1. unfold tests.emit at 1. unfold bind at 1.
  rewrite (poll_accepted env 20 0 m) by assumption.
  change ([] ++ [tests.Popen ["python"; "server.py"]])
    with [tests.Popen ["python"; "server.py"]].
  fold ready. destruct (body ready) as [r tr']. simpl.
  now rewrite <- app_assoc.
Qed.

Lemma fixture_waits_for_server_witness :
  tests.server_proc sample2.slow_start (tests.test_list_tools sample2.slow_start) []
  = (Ok tt,
     [tests.Popen ["python"; "server.py"];
      tests.CreateConnection "localhost" 8080 500; tests.Sleep 500;
      tests.CreateConnection "localhost" 8080 500; tests.Sleep 500;
      tests.CreateConnection "localhost" 8080 500; tests.CloseConnection;
      tests.Connect "http://localhost:8080/mcp"; tests.OpenSession;
      tests.Initialize; tests.ListToolsRequest; tests.CloseSession;
      tests.Disconnect; tests.Terminate; tests.Wait]).
Proof.
  refine (fixture_waits_for_server sample2.slow_start 2
            (tests.test_list_tools sample2.slow_start) _ _ eq_refl).
  - lia.
  - intros [|[|j]] Hj; [reflexivity|reflexivity|lia].
Defined.

(** X21.  When none of the 20 attempts is accepted, the fixture has tried
    20 times and slept 20 times, terminates the server, waits for it and
    raises [server did not start]; the tests do not run. *)
Theorem fixture_gives_up (env : tests.Env) (body : tests.T unit) :
  (forall j, (j < 20)%nat -> tests.accepts env j = false) ->
  tests.server_proc env body []
  = (Raise "server did not start"%string,
     [tests.Popen ["python"; "server.py"]] ++ tests.refused 20
     ++ [tests.Terminate; tests.Wait]).
Proof.
  intros Hno. unfold tests.server_proc.
  unfold bind at 1. unfold tests.emit at 1. unfold bind at 1.
  rewrite (poll_refused env 20 0) by (intros j Hj; apply Hno; lia).
  unfold bind, tests.emit, raise. now rewrite <- !app_assoc.
Qed.

Lemma fixture_gives_up_witness :
  fst (tests.server_proc sample2.never_up
         (tests.test_list_tools sample2.never_up) [])
  = Raise "server did not start"%string.
Proof.
  exact (f_equal fst (fixture_gives_up sample2.never_up
                        (tests.test_list_tools sample2.never_up)
                        (fun _ _ => eq_refl))).
Defined.

(** X22.  The wait for the server is bounded: the fixture makes at most 20
    connection attempts and sleeps at most 10 seconds in total before the
    tests run or it gives up, and the tests run exactly when one of the
    first 20 attempts is accepted. *)
Theorem fixture_wait_bounded (env : tests.Env) :
  exists (started : bool) (polled : list tests.Action),
    tests.poll env 20 0 [tests.Popen ["python"; "server.py"]]
    = (Ok started, [tests.Popen ["python"; "server.py"]] ++ polled)
    /\ (tests.attempts polled <= 20)%nat
    /\ 0 <= tests.slept polled <= 10000
    /\ (started = true
        <-> exists j, (j < 20)%nat /\ tests.accepts env j = true).
Proof.
  destruct (poll_bounds env 20 0 [tests.Popen ["python"; "server.py"]])
    as (b & new & Hpoll & Hatt & Hslept & Hb).
  exists b, new. repeat split; try assumption; try lia.
  - intros H. destruct (proj1 Hb H) as [j [Hj Hacc]]. exists j. split; [lia|exact Hacc].
  - intros [j [Hj Hacc]]. apply Hb. exists j. split; [lia|exact Hacc].
Qed.

Lemma fixture_wait_bounded_witness :
  exists (started : bool) (polled : list tests.Action),
    tests.poll sample2.slow_start 20 0 [tests.Popen ["python"; "server.py"]]
    = (Ok started, [tests.Popen ["python"; "server.py"]] ++ polled)
    /\ started = true.
Proof.
  destruct (fixture_wait_bounded sample2.slow_start)
    as (started & polled & Hpoll & _ & _ & Hiff).
  exists started, polled. split; [exact Hpoll|].
  apply Hiff. exists 2%nat. split; [lia|reflexivity].
Defined.

Ltac tests_unfold :=
  unfold tests.test_list_tools, tests.async_with, bind, ret, raise,
    tests.perform, tests.enter_transport, tests.emit,
    tests.session_list_tools, tests.assert;
  cbn [app fst snd].

Lemma existsb_name_in (n : string) (names : list string) :
  existsb (String.eqb n) names = true <-> In n names.
Proof.
  rewrite existsb_exists. split.
  - intros [x [Hin Heq]]. apply String.eqb_eq in Heq. now subst x.
  - intros Hin. exists n. split; [exact Hin|apply String.eqb_refl].
Qed.

(** With no failing action the test runs its whole session; only the
    assertion is left to decide. *)
Lemma test_list_tools_run env :
  (forall h a, tests.fails env h a = None) ->
  tests.test_list_tools env []
  = (if existsb (String.eqb "feedly.search")
          (map name (tests.listed env
                       [tests.Connect "http://localhost:8080/mcp";
                        tests.OpenSession; tests.Initialize]))
     then Ok tt else Raise "AssertionError"%string,
     [tests.Connect "http://localhost:8080/mcp"; tests.OpenSession;
      tests.Initialize; tests.ListToolsRequest; tests.CloseSession;
      tests.Disconnect]).
Proof.
  intros Hnone. tests_unfold. repeat (rewrite Hnone; tests_unfold).
  destruct (existsb (String.eqb "feedly.search")
              (map name (tests.listed env
                           [tests.Connect "http://localhost:8080/mcp";
                            tests.OpenSession; tests.Initialize])));
    tests_unfold; rewrite ?Hnone; reflexivity.
Qed.

(** X23.  When no session action fails, the test opens a session on
    [http://localhost:8080/mcp], performs the handshake, asks for the tools
    once, closes the session and disconnects; it passes exactly when
    [feedly.search] is among the listed names, and fails with an assertion
    error otherwise. *)
Theorem test_list_tools_verdict (env : tests.Env) :
  (forall h a, tests.fails env h a = None) ->
  let session :=
    [tests.Connect "http://localhost:8080/mcp"; tests.OpenSession;
     tests.Initialize] in
  let names := map name (tests.listed env session) in
  snd (tests.test_list_tools env [])
  = session ++ [tests.ListToolsRequest; tests.CloseSession; tests.Disconnect]
  /\ (fst (tests.test_list_tools env []) = Ok tt <-> In "feedly.search"%string names)
  /\ (fst (tests.test_list_tools env []) = Raise "AssertionError"%string
      <-> ~ In "feedly.search"%string names).
Proof.
  intros Hnone session names.
  rewrite <- (existsb_name_in "feedly.search" names).
  rewrite (test_list_tools_run env Hnone). fold session. fold names.
  destruct (existsb (String.eqb "feedly.search") names); cbn [fst snd].
  - split; [reflexivity|]. split; split; auto; try discriminate.
    intros H. now elim H.
  - split; [reflexivity|]. split; split; auto; try discriminate.
Qed.

Lemma test_list_tools_verdict_witness :
  fst (tests.test_list_tools sample2.slow_start []) = Ok tt.
Proof.
  refine (proj2 (proj1 (proj2 (test_list_tools_verdict sample2.slow_start
                                 (fun _ _ => eq_refl)))) _).
  left. reflexivity.
Defined.

(** X24.  The test passes against the tools registered by [server.py]:
    when the server lists the descriptors of its registry, whatever
    requests it has handled before, and no session action fails, the
    assertion holds. *)
Theorem test_list_tools_passes_on_server (env : tests.Env) (senv : Env)
    (st0 : State) (acts : list server.Activity) :
  server.startup = Ok st0 ->
  (forall h a, tests.fails env h a = None) ->
  (forall h, tests.listed env h
             = list_tools (mcp (server.after senv acts st0))) ->
  tests.test_list_tools env []
  = (Ok tt,
     [tests.Connect "http://localhost:8080/mcp"; tests.OpenSession;
      tests.Initialize; tests.ListToolsRequest; tests.CloseSession;
      tests.Disconnect]).
Proof.
  intros Hstart Hnone Hlisted.
  assert (Hst0 : st0 = {| mcp := spec.registry; sent := [] |})
    by (vm_compute in Hstart; now injection Hstart).
  rewrite (test_list_tools_run env Hnone), Hlisted, after_mcp, Hst0.
  reflexivity.
Qed.

Lemma test_list_tools_passes_on_server_witness :
  tests.test_list_tools sample2.slow_start []
  = (Ok tt,
     [tests.Connect "http://localhost:8080/mcp"; tests.OpenSession;
      tests.Initialize; tests.ListToolsRequest; tests.CloseSession;
      tests.Disconnect]).
Proof.
  exact (test_list_tools_passes_on_server sample2.slow_start
           (sample.api None 200 "{}")
           {| mcp := spec.registry; sent := [] |} []
           eq_refl (fun _ _ => eq_refl) (fun _ => eq_refl)).
Defined.
